(** * Meeting-preparation agent: a shallow embedding of [meeting_agent.py]

    The development follows the Python module top to bottom: text and
    bytes, the helpers ([_truncate_text], [_result_to_markdown],
    [_extract_supporting_documents], ...), the history store, and the
    button handlers of the Streamlit script.  Stateful code is written in
    a small state-and-exception monad over the session [world]. *)

From Stdlib Require Import ZArith NArith Lia Bool String Ascii.
From Stdlib Require Strings.Byte.
From stdpp Require Import base list.

Local Open Scope Z_scope.

(** ** Text and bytes *)

(** A Python [str] is a sequence of Unicode code points. *)
Definition char := N.
Definition text := list char.

(** A string literal of the source, as a Python [str] (the literals of the
    module that matter here are ASCII). *)
Definition lit (s : string) : text :=
  List.map N_of_ascii (list_ascii_of_string s).

Definition newline : char := 10%N.

(** [len(value)] as a Python integer. *)
Definition len {A} (l : list A) : Z := Z.of_nat (length l).

(** [value[:k]] for a Python integer [k]: a negative stop counts from the
    end of the sequence and is clipped at the start. *)
Definition slice_to {A} (value : list A) (k : Z) : list A :=
  if 0 <=? k then take (Z.to_nat k) value
  else take (length value - Z.to_nat (- k)) value.

(** [value[-k:]] for a positive literal [k] (the source uses [[-10:]]). *)
Definition last_n {A} (k : nat) (value : list A) : list A :=
  drop (length value - k) value.

(** [sep.join(parts)] *)
Fixpoint join (sep : text) (parts : list text) : text :=
  match parts with
  | [] => []
  | [p] => p
  | p :: rest => p ++ sep ++ join sep rest
  end.

(** ** Module constants *)

Definition MAX_DOCUMENT_CHARS : Z := 6000.

(** The suffix that [_truncate_text] appends: two newlines and the
    bracketed word. *)
Definition truncation_marker : text :=
  [newline; newline] ++ lit "...[truncated]...".

(** ** [_truncate_text] *)

Definition _truncate_text (value : text) (max_chars : Z) : text :=
  if len value <=? max_chars then value
  else slice_to value max_chars ++ truncation_marker.

(** ** Exceptions and results *)

(** An ordinary Python exception (an instance of [Exception]); [str(exc)]
    is its message. *)
Inductive exn := Exception (message : text).

Definition exn_str (e : exn) : text := let 'Exception m := e in m.

(** What evaluating a call gives: a value, or a raised exception. *)
Inductive outcome (A : Type) :=
  | Returned (a : A)
  | Raised (e : exn).
Arguments Returned {A} a.
Arguments Raised {A} e.

(** Truth value of a [str]: non-empty. *)
Definition truthy (s : text) : bool :=
  match s with [] => false | _ => true end.

(** [a or b] on strings. *)
Definition or_else (a b : text) : text := if truthy a then a else b.

(** ** Whitespace *)

(** The code points [str.strip()] removes. *)
Definition is_space (c : char) : bool :=
  ((9 <=? c) && (c <=? 13) || (28 <=? c) && (c <=? 32)
   || (c =? 133) || (c =? 160) || (c =? 5760)
   || (8192 <=? c) && (c <=? 8202)
   || (c =? 8232) || (c =? 8233) || (c =? 8239) || (c =? 8287)
   || (c =? 12288))%N.

Fixpoint lstrip (s : text) : text :=
  match s with
  | c :: rest => if is_space c then lstrip rest else s
  | [] => []
  end.

Definition rstrip (s : text) : text := reverse (lstrip (reverse s)).

Definition strip (s : text) : text := rstrip (lstrip s).

(** ** [bytes.decode("utf-8", errors="ignore")]

    The decoder of the Python runtime, as [_extract_supporting_documents]
    calls it.  With the [ignore] handler a malformed sequence is dropped
    and decoding resumes behind it: one byte for an invalid start byte,
    the bytes read so far for an invalid continuation byte, and the whole
    remainder for a sequence cut off by the end of the data. *)

Definition byte_val (b : Byte.byte) : N := Byte.to_N b.

Definition is_continuation (b : Byte.byte) : bool :=
  ((128 <=? byte_val b) && (byte_val b <? 192))%N.

(** Payload of a continuation byte. *)
Definition low6 (b : Byte.byte) : N := (byte_val b - 128)%N.

Fixpoint decode_utf8_ignore (bs : list Byte.byte) : text :=
  match bs with
  | [] => []
  | b1 :: r1 =>
    let c1 := byte_val b1 in
    if (c1 <? 128)%N then c1 :: decode_utf8_ignore r1
    else if (c1 <? 194)%N then decode_utf8_ignore r1
    else if (c1 <? 224)%N then
      match r1 with
      | [] => []
      | b2 :: r2 =>
        if is_continuation b2
        then ((c1 - 192) * 64 + low6 b2)%N :: decode_utf8_ignore r2
        else decode_utf8_ignore r1
      end
    else if (c1 <? 240)%N then
      match r1 with
      | [] => []
      | b2 :: r2 =>
        if negb (is_continuation b2)
           || (if (byte_val b2 <? 160)%N then (c1 =? 224)%N else (c1 =? 237)%N)
        then decode_utf8_ignore r1
        else
          match r2 with
          | [] => []
          | b3 :: r3 =>
            if is_continuation b3
            then ((c1 - 224) * 4096 + low6 b2 * 64 + low6 b3)%N
                 :: decode_utf8_ignore r3
            else decode_utf8_ignore r2
          end
      end
    else if (c1 <? 245)%N then
      match r1 with
      | [] => []
      | b2 :: r2 =>
        if negb (is_continuation b2)
           || (if (byte_val b2 <? 144)%N then (c1 =? 240)%N else (c1 =? 244)%N)
        then decode_utf8_ignore r1
        else
          match r2 with
          | [] => []
          | b3 :: r3 =>
            if negb (is_continuation b3) then decode_utf8_ignore r2
            else
              match r3 with
              | [] => []
              | b4 :: r4 =>
                if is_continuation b4
                then ((c1 - 240) * 262144 + low6 b2 * 4096
                      + low6 b3 * 64 + low6 b4)%N
                     :: decode_utf8_ignore r4
                else decode_utf8_ignore r3
              end
          end
      end
    else decode_utf8_ignore r1
  end.

(** A byte that cannot begin a UTF-8 sequence. *)
Definition invalid_start (b : Byte.byte) : bool :=
  ((128 <=? byte_val b) && (byte_val b <? 194) || (245 <=? byte_val b))%N.

(** ** What the page shows *)

(** The Streamlit calls of the script that matter for the flow, in the
    order they are issued. *)
Inductive ui_event :=
  | st_error (msg : text)
  | st_warning (msg : text)
  | st_success (msg : text)
  | st_markdown (body : text)
  | st_download_button (label data : text)
  | st_experimental_rerun.

(** ** Document ingestion *)

(** An uploaded file: [uploaded.name] and [uploaded.getvalue()]. *)
Record uploaded_file := {
  name : text;
  getvalue : list Byte.byte
}.

(** A supporting document, the dict [{"name": ..., "content": ...}]. *)
Record document := {
  doc_name : text;
  doc_content : text
}.

(** [str.lower()] on the letters A to Z.  No other code point lowers to
    one of the characters of [".pdf"], so the suffix test below agrees with
    the one of the source on every name. *)
Definition lower_char (c : char) : char :=
  if ((65 <=? c) && (c <=? 90))%N then (c + 32)%N else c.

Definition lower (s : text) : text := List.map lower_char s.

Definition text_eqb (a b : text) : bool := bool_decide (a = b).

(** [s.endswith(suffix)] *)
Definition endswith (s suffix : text) : bool :=
  text_eqb (drop (length s - length suffix) s) suffix
  && (length suffix <=? length s)%nat.

(** [PdfReader(io.BytesIO(file_bytes))] and the [extract_text()] of its
    pages, the external PDF collaborator: opening may raise, and so may a
    page; a page without text gives [None], read as the empty string. *)
Definition pdf_reader := list Byte.byte -> outcome (list (outcome text)).

(** [[page.extract_text() or "" for page in reader.pages]], which stops at
    the first page that raises. *)
Fixpoint page_texts (pages : list (outcome text)) : outcome (list text) :=
  match pages with
  | [] => Returned []
  | Raised e :: _ => Raised e
  | Returned t :: rest =>
    match page_texts rest with
    | Returned ts => Returned (t :: ts)
    | Raised e => Raised e
    end
  end.

(** The body of the [for uploaded in ...] loop: the document the file
    contributes, if any, and the warning it raises, if any. *)
Definition ingest_one (PdfReader : pdf_reader) (uploaded : uploaded_file)
  : option document * list ui_event :=
  let file_bytes := getvalue uploaded in
  match file_bytes with
  | [] => (None, [])
  | _ =>
    let extracted : outcome text :=
      if endswith (lower (name uploaded)) (lit ".pdf") then
        match PdfReader file_bytes with
        | Raised exc => Raised exc
        | Returned pages =>
          match page_texts pages with
          | Raised exc => Raised exc
          | Returned ts => Returned (join [newline] ts)
          end
        end
      else Returned (decode_utf8_ignore file_bytes) in
    match extracted with
    | Raised exc =>
      let verb :=
        if endswith (lower (name uploaded)) (lit ".pdf")
        then lit "Could not read " else lit "Could not decode " in
      (None, [st_warning (verb ++ name uploaded ++ lit ": " ++ exn_str exc)])
    | Returned t =>
      let t := strip t in
      if truthy t
      then (Some {| doc_name := name uploaded; doc_content := t |}, [])
      else (None, [])
    end
  end.

Fixpoint _extract_supporting_documents (PdfReader : pdf_reader)
    (uploaded_files : list uploaded_file) : list document * list ui_event :=
  match uploaded_files with
  | [] => ([], [])
  | uploaded :: rest =>
    let '(d, w) := ingest_one PdfReader uploaded in
    let '(ds, ws) := _extract_supporting_documents PdfReader rest in
    (match d with Some doc => doc :: ds | None => ds end, w ++ ws)
  end.

(** ** Context assembly *)

(** [st.session_state.get('truncate_chars', MAX_DOCUMENT_CHARS)] *)
Definition truncate_chars_or_default (truncate_chars : option Z) : Z :=
  match truncate_chars with Some n => n | None => MAX_DOCUMENT_CHARS end.

Definition _build_document_digest (truncate_chars : option Z)
    (documents : list document) : text :=
  match documents with
  | [] => lit "No additional supporting documents were provided."
  | _ =>
    join [newline; newline]
      (List.map
         (fun doc =>
            lit "Document: " ++ doc_name doc ++ [newline]
            ++ lit "Content Preview:" ++ [newline]
            ++ _truncate_text (doc_content doc)
                 (truncate_chars_or_default truncate_chars))
         documents)
  end.

Definition live_directive : text :=
  lit "Incorporate the most recent news, market movements, and growth signals discovered via live search.".

Definition regulatory_directive : text :=
  lit "Highlight regulatory, compliance, and localization considerations that could influence the meeting.".

Definition notes_directive : text :=
  lit "Bridge insights with the historical notes provided to emphasize continuity and momentum.".

Definition fallback_bullet : text := lit "- Focus on actionable intelligence.".

(** The list [context_directives] after the three [if ...: append]. *)
Definition context_directives (include_live_updates include_regulatory : bool)
    (meeting_notes : text) : list text :=
  (if include_live_updates then [live_directive] else [])
  ++ (if include_regulatory then [regulatory_directive] else [])
  ++ (if truthy meeting_notes then [notes_directive] else []).

Definition bullet (directive : text) : text := lit "- " ++ directive.

Definition context_directives_text
    (include_live_updates include_regulatory : bool) (meeting_notes : text)
  : text :=
  or_else
    (join [newline]
       (List.map bullet
          (context_directives include_live_updates include_regulatory
             meeting_notes)))
    fallback_bullet.

Definition shared_context (documents_digest meeting_notes : text) : text :=
  [newline] ++ lit "Supporting documents summary:" ++ [newline]
  ++ documents_digest ++ [newline; newline]
  ++ lit "Historical notes supplied by the team:" ++ [newline]
  ++ or_else meeting_notes (lit "No additional notes were provided.")
  ++ [newline].

(** ** Results of the generation backend *)

(** What looking an attribute up on a Python object gives: the attribute
    is missing ([AttributeError]), the lookup raises another exception (a
    property that fails), or it has a value. *)
Inductive probe (A : Type) :=
  | absent
  | raising (e : exn)
  | present (a : A).
Arguments absent {A}.
Arguments raising {A} e.
Arguments present {A} a.

(** An attribute value, as far as [isinstance(val, str)] tells. *)
Inductive pyvalue :=
  | py_str (s : text)
  | py_other.

(** A result object, seen through the operations [_result_to_markdown] and
    the handlers apply to it. *)
Record pyobject := {
  (** the attributes [raw], [final_output], [result], [output] *)
  getattribute : string -> probe pyvalue;
  (** the attribute [to_dict]; when it is there, what
      [json.dumps(result.to_dict(), indent=2, ensure_ascii=False)] gives *)
  to_dict : probe (outcome text);
  (** [str(result)] *)
  __str__ : outcome text;
  (** [bool(result)] *)
  __bool__ : bool
}.

Inductive crew_result :=
  | plain (s : text)
  | object (o : pyobject).

(** [if result:] *)
Definition result_truthy (r : crew_result) : bool :=
  match r with
  | plain s => truthy s
  | object o => __bool__ o
  end.

(** [getattr(result, attr, None)] *)
Definition getattr_or_None (o : pyobject) (attr : string) : outcome pyvalue :=
  match getattribute o attr with
  | absent => Returned py_other
  | raising e => Raised e
  | present v => Returned v
  end.

(** [hasattr(result, "to_dict")]: only [AttributeError] means no. *)
Definition hasattr_to_dict (o : pyobject) : outcome bool :=
  match to_dict o with
  | absent => Returned false
  | raising e => Raised e
  | present _ => Returned true
  end.

Definition text_fields : list string :=
  ["raw"; "final_output"; "result"; "output"]%string.

(** The [for attr in (...)] loop: the value it returns, or [None] when it
    falls through. *)
Fixpoint first_text_field (o : pyobject) (attrs : list string) : option text :=
  match attrs with
  | [] => None
  | attr :: rest =>
    let val :=
      match getattr_or_None o attr with
      | Returned v => v
      | Raised _ => py_other
      end in
    match val with
    | py_str s =>
      if truthy (strip s) then Some s else first_text_field o rest
    | py_other => first_text_field o rest
    end
  end.

(** The last [try: return str(result) except Exception: return ""]. *)
Definition str_fallback (o : pyobject) : text :=
  match __str__ o with
  | Returned s => s
  | Raised _ => []
  end.

Definition _result_to_markdown (result : crew_result) : outcome text :=
  match result with
  | plain s => Returned s
  | object o =>
    match first_text_field o text_fields with
    | Some s => Returned s
    | None =>
      match hasattr_to_dict o with
      | Raised e => Raised e
      | Returned true =>
        match to_dict o with
        | present (Returned dumped) => Returned dumped
        | _ => Returned (str_fallback o)
        end
      | Returned false => Returned (str_fallback o)
      end
    end
  end.

(** The attribute [attr] of [o] is a string with something other than
    whitespace in it, namely [s]. *)
Definition holds_text (o : pyobject) (attr : string) (s : text) : Prop :=
  getattribute o attr = present (py_str s) /\ strip s <> [].

Definition no_text (o : pyobject) (attr : string) : Prop :=
  forall s, ~ holds_text o attr s.

(** ** Roles, tasks and the sequential crew *)

Inductive Agent :=
  | context_analyzer
  | industry_insights_generator
  | strategy_formulator
  | executive_briefing_creator
  | rehearsal_coach
  | follow_up_partner.

(** The fields of the form the prompts interpolate. *)
Record form := {
  company_name : text;
  meeting_objective : text;
  attendees : text;
  focus_areas : text
}.

(** A task description is an f-string of the source: the template and the
    values it interpolates. *)
Inductive description :=
  | stage_prompt (stage : Agent) (f : form) (context directives : text)
  | transcript_prompt (f : form) (transcript_text : text)
  | objection_prompt (f : form) (history_text : text)
  | score_prompt (f : form) (history_text user_resp : text).

Record Task := {
  task_description : description;
  agent : Agent
}.

(** The generation backend: one call per task, which returns a result or
    raises; [B] is whatever the backend carries from one call to the
    next. *)
Definition backend (B : Type) := B -> Task -> B * outcome crew_result.

(** [Process.sequential]: the tasks are run in order and the first one
    that raises ends the run.  The log has one line per call made. *)
Fixpoint run_sequential {B} (generate : backend B) (b : B) (tasks : list Task)
  : list (Task * outcome crew_result) :=
  match tasks with
  | [] => []
  | t :: rest =>
    let '(b', r) := generate b t in
    (t, r) ::
    match r with
    | Returned _ => run_sequential generate b' rest
    | Raised _ => []
    end
  end.

(** [crew.kickoff()]: the output of the last task, or the exception that
    ended the run (a crew without tasks has an empty output). *)
Definition kickoff {B} (generate : backend B) (b : B) (tasks : list Task)
  : outcome crew_result :=
  match last (run_sequential generate b tasks) with
  | Some (_, r) => r
  | None => Returned (plain [])
  end.

Definition is_raised {A} (r : outcome A) : bool :=
  match r with Raised _ => true | Returned _ => false end.

(** The six tasks of [meeting_prep_crew], in the order of its [tasks]. *)
Definition meeting_prep_tasks (f : form) (context directives : text)
  : list Task :=
  List.map
    (fun a => {| task_description := stage_prompt a f context directives;
                 agent := a |})
    [context_analyzer; industry_insights_generator; strategy_formulator;
     executive_briefing_creator; rehearsal_coach; follow_up_partner].

(** ** Session state and the history file *)

(** A saved brief, the dict built by the handlers. *)
Record HistoryEntry := {
  timestamp : text;
  company : text;
  objective : text;
  entry_attendees : text;
  focusAreas : text;
  documents : list text;
  result : text
}.

Inductive speaker := coach | you.

(** A turn of the practice log, [{"role": ..., "content": ...}]. *)
Record turn := {
  role : speaker;
  content : text
}.

(** A value [json.loads] returns; a number is kept as its literal. *)
#[warnings="-register-all"]
Inductive json :=
  | json_null
  | json_bool (b : bool)
  | json_number (literal : text)
  | json_string (s : text)
  | json_array (items : list json)
  | json_object (members : list (text * json)).

(** [data/meeting_history.json] on disk, as far as reading it can tell:
    no file, a file that cannot be read, a file whose content
    [json.loads] rejects, the JSON list of entries, or content that
    parses to anything else ([null], an object, a string, a list of
    other things), which [json.loads] returns as [v]. *)
Inductive history_file :=
  | file_absent
  | file_unreadable (e : exn)
  | file_malformed (e : exn)
  | file_holds (entries : list HistoryEntry)
  | file_holds_json (v : json).

(** [st.session_state] (the keys the handlers use), the history file and
    what has been put on the page. *)
Record world := {
  meeting_history : list HistoryEntry;
  history_view : option HistoryEntry;
  practice_history : list turn;
  HISTORY_FILE : history_file;
  page : list ui_event
}.

(** How the file system answers the next write. *)
Inductive disk :=
  | disk_ok
  | mkdir_raises (e : exn)
  | write_text_raises (e : exn) (opened : bool).

(** ** The monad of the handlers: state and exceptions *)

Definition M (A : Type) := world -> world * outcome A.

Definition ret {A} (a : A) : M A := fun w => (w, Returned a).

Definition raise {A} (e : exn) : M A := fun w => (w, Raised e).

Definition bind {A C} (c : M A) (k : A -> M C) : M C :=
  fun w =>
    match c w with
    | (w', Returned a) => k a w'
    | (w', Raised e) => (w', Raised e)
    end.

Declare Scope handler_scope.
Delimit Scope handler_scope with handler.
Notation "x <- c ;; k" := (bind c (fun x => k))
  (at level 100, c at next level, right associativity) : handler_scope.
Notation "c ;; k" := (bind c (fun _ => k))
  (at level 100, right associativity) : handler_scope.
Local Open Scope handler_scope.

(** [try: c except Exception as exc: h exc] *)
Definition try_except {A} (c : M A) (h : exn -> M A) : M A :=
  fun w =>
    match c w with
    | (w', Returned a) => (w', Returned a)
    | (w', Raised e) => h e w'
    end.

Definition lift {A} (r : outcome A) : M A := fun w => (w, r).

Definition get {A} (field : world -> A) : M A := fun w => (w, Returned (field w)).

Definition set_meeting_history (v : list HistoryEntry) : M unit :=
  fun w => ({| meeting_history := v; history_view := history_view w;
               practice_history := practice_history w;
               HISTORY_FILE := HISTORY_FILE w; page := page w |}, Returned tt).

Definition set_history_view (v : option HistoryEntry) : M unit :=
  fun w => ({| meeting_history := meeting_history w; history_view := v;
               practice_history := practice_history w;
               HISTORY_FILE := HISTORY_FILE w; page := page w |}, Returned tt).

Definition set_practice_history (v : list turn) : M unit :=
  fun w => ({| meeting_history := meeting_history w;
               history_view := history_view w; practice_history := v;
               HISTORY_FILE := HISTORY_FILE w; page := page w |}, Returned tt).

Definition set_HISTORY_FILE (v : history_file) : M unit :=
  fun w => ({| meeting_history := meeting_history w;
               history_view := history_view w;
               practice_history := practice_history w;
               HISTORY_FILE := v; page := page w |}, Returned tt).

(** A Streamlit call: one more element on the page. *)
Definition show (ev : ui_event) : M unit :=
  fun w => ({| meeting_history := meeting_history w;
               history_view := history_view w;
               practice_history := practice_history w;
               HISTORY_FILE := HISTORY_FILE w; page := page w ++ [ev] |},
            Returned tt).

(** ** The history store *)

(** What [_read_history_file] returns: a list of entries, or whatever
    else the content of the file parsed to. *)
Inductive loaded :=
  | history_list (entries : list HistoryEntry)
  | other_value (v : json).

(** [json.loads(HISTORY_FILE.read_text(encoding="utf-8"))] *)
Definition read_and_parse (f : history_file) : outcome loaded :=
  match f with
  | file_absent => Raised (Exception (lit "No such file or directory"))
  | file_unreadable e => Raised e
  | file_malformed e => Raised e
  | file_holds entries => Returned (history_list entries)
  | file_holds_json v => Returned (other_value v)
  end.

(** [HISTORY_FILE.exists()].  [stat_error] is the error the look at the
    path runs into, if any: [exists()] answers [False] when there is no
    such file and lets every other [OSError] through (a
    [PermissionError] on the directory, say). *)
Definition exists_ (stat_error : option exn) (f : history_file)
  : outcome bool :=
  match stat_error with
  | Some e => Raised e
  | None => Returned match f with file_absent => false | _ => true end
  end.

(** The call of [exists()] is in front of the [try]. *)
Definition _read_history_file (stat_error : option exn) : M loaded :=
  f <- get HISTORY_FILE ;;
  present <- lift (exists_ stat_error f) ;;
  if negb present then ret (history_list [])
  else try_except (lift (read_and_parse f)) (fun _ => ret (history_list [])).

Definition _write_history_file (d : disk) (entries : list HistoryEntry)
  : M unit :=
  match d with
  | disk_ok => set_HISTORY_FILE (file_holds entries)
  | mkdir_raises e => raise e
  | write_text_raises e opened =>
    (if opened
     then set_HISTORY_FILE (file_malformed (Exception (lit "Expecting value")))
     else ret tt) ;;
    raise e
  end.

Definition _save_meeting_to_history (d : disk) (entry : HistoryEntry)
  : M unit :=
  entries <- get meeting_history ;;
  let entries := entry :: entries in
  let entries := slice_to entries 20 in
  set_meeting_history entries ;;
  _write_history_file d entries.

(** [stat_error]: as for [exists_]; [unlink_error]: whether removing
    the file fails.  Both calls are inside the [try]. *)
Definition _clear_history (stat_error unlink_error : option exn) : M unit :=
  try_except
    (f <- get HISTORY_FILE ;;
     present <- lift (exists_ stat_error f) ;;
     if present then
       match unlink_error with
       | Some e => raise e
       | None => set_HISTORY_FILE file_absent
       end
     else ret tt)
    (fun _ => ret tt) ;;
  set_meeting_history [] ;;
  set_history_view None.

(** How a session begins: with a session state the handlers work on; not
    at all, when [_read_history_file] raises and the script stops there;
    or with ["meeting_history"] holding a value that is not a list of
    entries, which [world] has no place for. *)
Inductive session_start :=
  | session_started (w : world)
  | session_start_raised (e : exn)
  | session_holds (v : json).

(** The start of a session: [if "meeting_history" not in st.session_state]
    and the line after it, over the file [f]. *)
Definition start_session (stat_error : option exn) (f : history_file)
  : session_start :=
  let w0 := {| meeting_history := []; history_view := None;
               practice_history := []; HISTORY_FILE := f; page := [] |} in
  match _read_history_file stat_error w0 with
  | (w1, Returned (history_list entries)) =>
    session_started (fst (set_meeting_history entries w1))
  | (_, Returned (other_value v)) => session_holds v
  | (_, Raised e) => session_start_raised e
  end.

(** ** The button handlers *)

(** [try: r = crew.kickoff() except Exception as exc: st.error(...); r = None] *)
Definition kickoff_or_report {B} (generate : backend B) (b : B)
    (tasks : list Task) (what : text) : M (option crew_result) :=
  try_except
    (r <- lift (kickoff generate b tasks) ;; ret (Some r))
    (fun exc => show (st_error (what ++ exn_str exc)) ;; ret None).

(** [if r:] for a result that may be [None]. *)
Definition usable (r : option crew_result) : option crew_result :=
  match r with
  | Some r => if result_truthy r then Some r else None
  | None => None
  end.

Section Handlers.

Context {B : Type}.
(** the generation backend and what it carries when the button is hit *)
Variable generate : backend B.
Variable b : B.
(** how the file system answers a write during this run *)
Variable d : disk.
(** [datetime.utcnow().isoformat()] *)
Variable now : text.
Variable f : form.

(** "Prepare Meeting".  The slide export nested in the success branch
    is left out: its button is never down in a run the outer button
    started, and it touches neither the session state nor the file. *)
Definition prepare_meeting (supporting_documents : list document)
    (context directives : text) : M unit :=
  if negb (truthy (company_name f)) || negb (truthy (meeting_objective f))
  then
    show (st_warning (lit "Please provide both a company name and meeting objective before preparing the meeting."))
  else
    r <- kickoff_or_report generate b
           (meeting_prep_tasks f context directives)
           (lit "Error preparing meeting: ") ;;
    match usable r with
    | Some r =>
      result_text <- lift (_result_to_markdown r) ;;
      show (st_markdown result_text) ;;
      show (st_download_button (lit "Download meeting brief as .md")
              result_text) ;;
      let history_entry :=
        {| timestamp := now;
           company := company_name f;
           objective := meeting_objective f;
           entry_attendees := attendees f;
           focusAreas := focus_areas f;
           documents := List.map doc_name supporting_documents;
           result := result_text |} in
      _save_meeting_to_history d history_entry ;;
      set_history_view (Some history_entry) ;;
      show (st_success (lit "Meeting brief archived in your library."))
    | None => ret tt
    end.

(** "Summarize & Extract Actions" *)
Definition summarize_transcript (transcript_text : text)
    (save_to_library : bool) : M unit :=
  if truthy (strip transcript_text) then
    let task := {| task_description := transcript_prompt f transcript_text;
                   agent := follow_up_partner |} in
    r <- kickoff_or_report generate b [task]
           (lit "Error summarizing transcript: ") ;;
    match usable r with
    | Some r =>
      tx_text <- lift (_result_to_markdown r) ;;
      show (st_markdown tx_text) ;;
      show (st_download_button (lit "Download transcript summary")
              tx_text) ;;
      if save_to_library then
        let entry :=
          {| timestamp := now;
             company := company_name f;
             objective := meeting_objective f ++ lit " (Transcript Summary)";
             entry_attendees := attendees f;
             focusAreas := focus_areas f;
             documents := [];
             result := tx_text |} in
        _save_meeting_to_history d entry ;;
        show (st_success (lit "Transcript summary saved to library."))
      else ret tt
    | None => ret tt
    end
  else ret tt.

Definition role_text (r : speaker) : text :=
  match r with coach => lit "coach" | you => lit "you" end.

(** The practice log as the prompts quote it: the last ten turns, one
    per line. *)
Definition history_text (log : list turn) : text :=
  join [newline]
    (last_n 10
       (List.map (fun t => role_text (role t) ++ lit ": " ++ content t) log)).

(** [st.session_state["practice_history"].append(t)] *)
Definition append_turn (t : turn) : M unit :=
  log <- get practice_history ;;
  set_practice_history (log ++ [t]).

(** "Ask next objection" *)
Definition ask_next_objection : M unit :=
  log <- get practice_history ;;
  let task := {| task_description := objection_prompt f (history_text log);
                 agent := rehearsal_coach |} in
  r <- kickoff_or_report generate b [task]
         (lit "Error generating objection: ") ;;
  match usable r with
  | Some r =>
    objection <- lift (_result_to_markdown r) ;;
    append_turn {| role := coach; content := objection |} ;;
    show st_experimental_rerun
  | None => ret tt
  end.

(** "Score my response" *)
Definition score_response (user_resp : text) : M unit :=
  if truthy (strip user_resp) then
    append_turn {| role := you; content := user_resp |} ;;
    log <- get practice_history ;;
    let task :=
      {| task_description := score_prompt f (history_text log) user_resp;
         agent := rehearsal_coach |} in
    r <- kickoff_or_report generate b [task]
           (lit "Error scoring response: ") ;;
    match usable r with
    | Some r =>
      feedback <- lift (_result_to_markdown r) ;;
      append_turn {| role := coach; content := feedback |} ;;
      show st_experimental_rerun
    | None => ret tt
    end
  else ret tt.

(** "Clear session" *)
Definition clear_practice_session : M unit :=
  set_practice_history [] ;;
  show st_experimental_rerun.

End Handlers.

(** The three one-shot invocations, with what the user typed or ticked. *)
Inductive ancillary :=
  | summarize (transcript_text : text) (save_to_library : bool)
  | next_objection
  | score (user_resp : text).

(** The handler behind each of them. *)
Definition ancillary_handler {B} (generate : backend B) (b : B) (d : disk)
    (now : text) (f : form) (a : ancillary) : M unit :=
  match a with
  | summarize transcript_text save_to_library =>
    summarize_transcript generate b d now f transcript_text save_to_library
  | next_objection => ask_next_objection generate b f
  | score user_resp => score_response generate b f user_resp
  end.

(** Whether the handler gets as far as calling the backend. *)
Definition calls_backend (a : ancillary) : bool :=
  match a with
  | summarize transcript_text _ => truthy (strip transcript_text)
  | next_objection => true
  | score user_resp => truthy (strip user_resp)
  end.

(** The task it hands to the crew when the practice log is [log]. *)
Definition ancillary_task (f : form) (log : list turn) (a : ancillary) : Task :=
  match a with
  | summarize transcript_text _ =>
    {| task_description := transcript_prompt f transcript_text;
       agent := follow_up_partner |}
  | next_objection =>
    {| task_description := objection_prompt f (history_text log);
       agent := rehearsal_coach |}
  | score user_resp =>
    {| task_description :=
         score_prompt f
           (history_text (log ++ [{| role := you; content := user_resp |}]))
           user_resp;
       agent := rehearsal_coach |}
  end.

(** The words its error message starts with. *)
Definition error_prefix (a : ancillary) : text :=
  match a with
  | summarize _ _ => lit "Error summarizing transcript: "
  | next_objection => lit "Error generating objection: "
  | score _ => lit "Error scoring response: "
  end.

(** The turns the handler records before it calls the backend. *)
Definition recorded_before_call (a : ancillary) : list turn :=
  match a with
  | score user_resp => [{| role := you; content := user_resp |}]
  | summarize _ _ | next_objection => []
  end.

(** A run of appends, one per [(disk, entry)] pair, oldest first: each is
    a call of [_save_meeting_to_history], and the session goes on whether
    or not the write raised. *)
Fixpoint run_appends (calls : list (disk * HistoryEntry)) (w : world) : world :=
  match calls with
  | [] => w
  | (d, entry) :: rest =>
    run_appends rest (fst (_save_meeting_to_history d entry w))
  end.

(** ** The meeting library in the sidebar *)

(** [old in s] for a one-character [old]. *)
Definition contains_char (old : char) (s : text) : bool :=
  existsb (N.eqb old) s.

(** [s.replace(old, new)] for one-character [old] and [new]. *)
Definition replace_char (old new : char) (s : text) : text :=
  List.map (fun c => if (c =? old)%N then new else c) s.

(** The separator of the label as the source file has it: the three code
    points U+201A, U+00C4, U+00EC between two spaces. *)
Definition option_separator : text := [32; 8218; 196; 236; 32]%N.

(** The label of a saved brief in the select box.  The entries of the
    session all carry the three keys, so the defaults of [entry.get] do
    not show. *)
Definition _format_history_option (entry : HistoryEntry) : text :=
  let company := company entry in
  let objective := objective entry in
  let timestamp := timestamp entry in
  let timestamp :=
    if contains_char 84%N timestamp then replace_char 84%N 32%N timestamp
    else timestamp in
  company ++ option_separator ++ objective ++ lit " (" ++ timestamp ++ lit ")".

(** "Load into form": the four fields of the form taken from the selected
    brief. *)
Definition load_into_form (selected : HistoryEntry) : form :=
  {| company_name := company selected;
     meeting_objective := objective selected;
     attendees := entry_attendees selected;
     focus_areas := focusAreas selected |}.

(** ** Document snapshots *)


(** ** Slides from a brief *)

(** The characters at which [str.splitlines()] breaks a line. *)
Definition is_linebreak (c : char) : bool :=
  ((10 <=? c) && (c <=? 13) || (28 <=? c) && (c <=? 30)
   || (c =? 133) || (c =? 8232) || (c =? 8233))%N.

(** [s.splitlines()], with [cur] the line read so far: a carriage return
    followed by a line feed is one break, and a break at the very end
    opens no further line. *)
Fixpoint splitlines_from (cur s : text) : list text :=
  match s with
  | [] => match cur with [] => [] | _ => [cur] end
  | c :: rest =>
    if (c =? 13)%N then
      match rest with
      | c' :: rest' =>
        if (c' =? 10)%N then cur :: splitlines_from [] rest'
        else cur :: splitlines_from [] rest
      | [] => cur :: splitlines_from [] rest
      end
    else if is_linebreak c then cur :: splitlines_from [] rest
    else splitlines_from (cur ++ [c]) rest
  end.

Definition splitlines (s : text) : list text := splitlines_from [] s.

(** [s.startswith(prefix)] *)
Definition startswith (s prefix : text) : bool :=
  text_eqb (take (length prefix) s) prefix.

(** [s.strip(chars)]: the characters of [chars] are taken off both ends. *)
Definition in_chars (chars : text) (c : char) : bool := existsb (N.eqb c) chars.

Fixpoint lstrip_chars (chars s : text) : text :=
  match s with
  | c :: rest => if in_chars chars c then lstrip_chars chars rest else s
  | [] => []
  end.

Definition strip_chars (chars s : text) : text :=
  reverse (lstrip_chars chars (reverse (lstrip_chars chars s))).

(** A slide with a title and a body; the body of a new slide is one empty
    paragraph. *)
Record slide := {
  slide_title : text;
  paragraphs : list text
}.

(** The text setters of [python-pptx], [shape.text = s] and
    [paragraph.text = s], for a text without line feed: the text the title
    or paragraph reads as afterwards (the library stores some characters
    in another form), or the error the assignment raises (the XML layer
    refuses some).  The library is not part of the source; it is taken as
    it comes. *)
Definition text_setter := text -> outcome text.

Definition tab : char := 9%N.

Definition is_heading (line : text) : bool :=
  startswith (strip line) (lit "# ") || startswith (strip line) (lit "## ").

(** The lines of a brief as the slide builder sorts them: a line that
    is not blank is a heading or content. *)
Definition is_content (line : text) : bool :=
  negb (is_heading line) && truthy (strip line).

(** The title a heading line asks for, and the text a content line asks
    for in its paragraph. *)
Definition heading_title (line : text) : text :=
  strip (strip_chars (lit "# ") line).

Definition bullet_text (line : text) : text :=
  strip_chars (lit "- *" ++ [tab] ++ lit " ") line.

(** The paragraph a bullet goes to: the first one while it is the only
    one and still empty, a new one after that. *)
Definition put_paragraph (body : list text) (p : text) : list text :=
  match body with
  | [first] => if truthy first then body ++ [p] else [p]
  | _ => body ++ [p]
  end.

Section SlideBuilder.

Variable set_text : text_setter.

(** [add_slide_with_title(heading)]: the new slide is the current one. *)
Definition add_slide_with_title (heading : text) (slides : list slide)
  : outcome (list slide) :=
  match set_text (strip (strip_chars (lit "# ") heading)) with
  | Returned title =>
    Returned (slides ++ [{| slide_title := title; paragraphs := [[]] |}])
  | Raised e => Raised e
  end.

(** [add_bullet(text)]: on the current slide, which is the last one
    added; before any heading a slide titled "Details" is started. *)
Definition add_bullet (line : text) (slides : list slide)
  : outcome (list slide) :=
  match match slides with
        | [] => add_slide_with_title (lit "Details") slides
        | _ => Returned slides
        end with
  | Raised e => Raised e
  | Returned slides =>
    match reverse slides with
    | current :: before =>
      match set_text (strip_chars (lit "- *" ++ [tab] ++ lit " ") line) with
      | Returned p =>
        Returned
          (reverse before
           ++ [{| slide_title := slide_title current;
                  paragraphs := put_paragraph (paragraphs current) p |}])
      | Raised e => Raised e
      end
    | [] => Returned slides
    end
  end.

(** The body of [for line in lines]. *)
Definition slide_step (slides : list slide) (line : text)
  : outcome (list slide) :=
  if is_heading line then add_slide_with_title line slides
  else if startswith (strip line) (lit "- ") || startswith (strip line) (lit "* ")
  then add_bullet line slides
  else if truthy (strip line) then add_bullet line slides
  else Returned slides.

(** The loop over the lines; an assignment that raises ends it. *)
Fixpoint build_slides (lines : list text) (slides : list slide)
  : outcome (list slide) :=
  match lines with
  | [] => Returned slides
  | line :: rest =>
    match slide_step slides line with
    | Returned slides => build_slides rest slides
    | Raised e => Raised e
    end
  end.

End SlideBuilder.

(** The deck: the title slide with its subtitle, and the slides made from
    the lines. *)
Record presentation := {
  deck_title : text;
  deck_subtitle : text;
  slides : list slide
}.

(** [_brief_to_pptx]: the presentation that is saved and returned as
    bytes, or [None] for the empty bytes returned when [python-pptx]
    cannot be imported. *)
Definition _brief_to_pptx (set_text : text_setter) (pptx_installed : bool)
    (markdown_text title : text) : outcome (option presentation) :=
  if pptx_installed then
    match set_text title with
    | Raised e => Raised e
    | Returned shown_title =>
      match set_text (lit "Auto-generated from executive brief") with
      | Raised e => Raised e
      | Returned subtitle =>
        match build_slides set_text (splitlines markdown_text) [] with
        | Raised e => Raised e
        | Returned built =>
          Returned (Some {| deck_title := shown_title;
                            deck_subtitle := subtitle;
                            slides := built |})
        end
      end
    end
  else Returned None.

(** Whether content comes before the first heading. *)
Fixpoint starts_with_content (lines : list text) : bool :=
  match lines with
  | [] => false
  | line :: rest =>
    if is_heading line then false
    else if truthy (strip line) then true
    else starts_with_content rest
  end.

(** The texts on the slides, in reading order, empty paragraphs left
    out. *)
Definition deck_texts (slides : list slide) : list text :=
  List.filter truthy (concat (List.map paragraphs slides)).

(** The setter takes [s] and the text then reads as [t]; the setter takes
    [s]. *)
Definition stores (set_text : text_setter) (s t : text) : Prop :=
  set_text s = Returned t.

Definition accepts (set_text : text_setter) (s : text) : Prop :=
  exists t, set_text s = Returned t.

(** The titles the builder asks for, slide by slide. *)
Definition wanted_titles (lines : list text) : list text :=
  (if starts_with_content lines then [lit "Details"] else [])
  ++ List.map heading_title (List.filter is_heading lines).

(** The paragraph texts the builder asks for, in the order of the brief. *)
Definition wanted_texts (lines : list text) : list text :=
  List.map bullet_text (List.filter is_content lines).

(** Every text the builder hands to the setters for a brief. *)
Definition builder_texts (title : text) (lines : list text) : list text :=
  title :: lit "Auto-generated from executive brief"
  :: wanted_titles lines ++ wanted_texts lines.

(** ** Sample data for the examples *)

(** The session as it starts without a history file. *)
Definition empty_world : world :=
  {| meeting_history := []; history_view := None; practice_history := [];
     HISTORY_FILE := file_absent; page := [] |}.


Definition permission_denied : exn := Exception (lit "Permission denied").

(** The brief of run [n]. *)
Definition sample_entry (n : nat) : HistoryEntry :=
  {| timestamp := lit "2024-05-01T09:00:00"; company := lit "Acme Corp";
     objective := lit "Renewal negotiation"; entry_attendees := [];
     focusAreas := []; documents := [];
     result := lit "Brief " ++ [N.of_nat n] |}.

(** Runs 1 to [n], each with a disk that takes the write. *)
Definition sample_calls (n : nat) : list (disk * HistoryEntry) :=
  List.map (fun k => (disk_ok, sample_entry k)) (seq 1 n).

Definition acme : form :=
  {| company_name := lit "Acme Corp";
     meeting_objective := lit "Renewal negotiation";
     attendees := lit "CFO"; focus_areas := [] |}.

Definition disk_full : exn := Exception (lit "No space left on device").

Definition timeout_error : exn := Exception (lit "Request timed out").

(** A backend that answers every task with the same brief. *)
Definition steady_backend : backend unit :=
  fun _ _ => (tt, Returned (plain (lit "Executive brief"))).

(** A backend that counts its calls and fails at the third. *)
Definition third_call_fails : backend nat :=
  fun n _ =>
    (S n, if (n =? 2)%nat then Raised timeout_error
          else Returned (plain (lit "Stage output"))).

(** A backend that is down. *)
Definition backend_down : backend unit :=
  fun _ _ => (tt, Raised timeout_error).

(** An object with nothing but [raw = " "]. *)
Definition blank_raw_result : pyobject :=
  {| getattribute :=
       fun attr =>
         if String.eqb attr "raw" then present (py_str (lit " ")) else absent;
     to_dict := absent;
     __str__ := Returned (lit "<Result>");
     __bool__ := true |}.

(** An object with nothing but [raw], holding a brief. *)
Definition raw_only_result : pyobject :=
  {| getattribute :=
       fun attr =>
         if String.eqb attr "raw" then present (py_str (lit "# Brief"))
         else absent;
     to_dict := absent;
     __str__ := Returned (lit "<Result>");
     __bool__ := true |}.

(** An object whose [to_dict] is a property that raises. *)
Definition broken_export_result : pyobject :=
  {| getattribute := fun _ => absent;
     to_dict := raising (Exception (lit "export unavailable"));
     __str__ := Returned (lit "<Result>");
     __bool__ := true |}.

(** A text file of two bytes, neither of which is valid UTF-8. *)
Definition undecodable_notes : uploaded_file :=
  {| name := lit "notes.txt"; getvalue := [Byte.xff; Byte.xfe] |}.

(** A text file with a stray byte between two letters. *)
Definition stray_byte_notes : uploaded_file :=
  {| name := lit "notes.md"; getvalue := [Byte.x41; Byte.xff; Byte.x42] |}.

(** A PDF collaborator that reads nothing. *)
Definition no_pdf_reader : pdf_reader :=
  fun _ => Raised (Exception (lit "EOF marker not found")).

(** An upload named as a PDF. *)
Definition deck_pdf : uploaded_file :=
  {| name := lit "Deck.PDF"; getvalue := [Byte.x25; Byte.x50; Byte.x44; Byte.x46] |}.

(** A PDF collaborator that finds two pages, the second without text. *)
Definition two_page_reader : pdf_reader :=
  fun _ => Returned [Returned (lit "Roadmap "); Returned []].

(** A backend whose answers are empty. *)
Definition silent_backend : backend unit :=
  fun _ _ => (tt, Returned (plain [])).

(** A setter that takes every text and stores it as it is. *)
Definition plain_setter : text_setter := fun s => Returned s.

(** A short brief, line by line. *)
Definition short_brief : text :=
  lit "Intro" ++ [newline] ++ lit "# Goals" ++ [13; 10]%N
  ++ lit "- renew" ++ [newline; newline] ++ lit "* expand".

(** ** Theorems *)

Lemma slice_to_nonneg {A} (value : list A) (k : Z) :
  0 <= k -> slice_to value k = take (Z.to_nat k) value.
Proof.
  intros Hk. unfold slice_to.
  destruct (Z.leb_spec 0 k) as [_|Hlt]; [reflexivity | lia].
Qed.

Lemma truncation_marker_length : len truncation_marker = 19.
Proof. reflexivity. Qed.

(** *** Lists *)

Lemma len_app {A} (l k : list A) : len (l ++ k) = len l + len k.
Proof. unfold len. rewrite length_app. lia. Qed.

Lemma take_app_take {A} (n : nat) (l k : list A) :
  take n (l ++ take n k) = take n (l ++ k).
Proof.
  rewrite !take_app, take_take. f_equal. f_equal. lia.
Qed.

(** *** Truncation *)

Lemma truncate_within (T : text) (B : Z) :
  len T <= B -> _truncate_text T B = T.
Proof.
  intros H. unfold _truncate_text.
  destruct (Z.leb_spec (len T) B); [reflexivity | lia].
Qed.

Lemma truncate_beyond (T : text) (B : Z) :
  0 <= B -> B < len T ->
  _truncate_text T B = take (Z.to_nat B) T ++ truncation_marker.
Proof.
  intros H0 H. unfold _truncate_text.
  destruct (Z.leb_spec (len T) B); [lia |].
  now rewrite slice_to_nonneg.
Qed.

(** C2, as stated, fails: a text that already ends in the marker right
    behind its first three characters is longer than the budget 3 and
    still comes back unchanged. *)
Lemma truncate_unchanged_iff_fails :
  let T := lit "abc" ++ truncation_marker in
  ~ (_truncate_text T 3 = T <-> len T <= 3).
Proof.
  intros T [H _]. assert (Hlen : len T <= 3) by (apply H; reflexivity).
  vm_compute in Hlen. apply Hlen. reflexivity.
Qed.

(** C2 (amended): for a budget [B >= 0], a text within the budget comes
    back unchanged; a longer one comes back as its first [B] characters
    followed by the marker, of length [B] plus the length of the marker;
    and the result equals the input exactly when the text is within the
    budget or what follows its first [B] characters is the marker
    itself. *)
Theorem truncate_text_contract (T : text) (B : Z) (HB : 0 <= B) :
  (len T <= B -> _truncate_text T B = T)
  /\ (B < len T ->
      _truncate_text T B = take (Z.to_nat B) T ++ truncation_marker
      /\ len (_truncate_text T B) = B + len truncation_marker)
  /\ (_truncate_text T B = T <->
      len T <= B \/ drop (Z.to_nat B) T = truncation_marker).
Proof.
  split; [apply truncate_within |]. split.
  - intros Hlt. rewrite truncate_beyond by assumption. split; [reflexivity |].
    rewrite len_app. f_equal. unfold len in *. rewrite length_take. lia.
  - destruct (Z.le_gt_cases (len T) B) as [Hle | Hgt].
    + split; [now left | intros _; now apply truncate_within].
    + rewrite truncate_beyond by lia. split.
      * intros Heq. right.
        symmetry. apply (app_inv_head (take (Z.to_nat B) T)).
        now rewrite take_drop.
      * intros [Hle | Hd]; [lia |].
        rewrite <- Hd. apply take_drop.
Qed.

Lemma truncate_text_contract_witness :
  0 <= 2
  /\ _truncate_text (lit "abcdef") 2 = lit "ab" ++ truncation_marker
  /\ len (_truncate_text (lit "abcdef") 2) = 21.
Proof.
  split; [lia |].
  destruct (truncate_text_contract (lit "abcdef") 2 ltac:(lia)) as (_ & H & _).
  apply H. reflexivity.
Defined.

(** A negative budget is outside the contract: the slice then counts
    from the end of the text. *)
Example truncate_negative_budget :
  _truncate_text (lit "abcdef") (-2) = lit "abcd" ++ truncation_marker.
Proof. reflexivity. Qed.

(** *** The history store *)

(** What an append does to the session list does not depend on the disk. *)
Lemma save_meeting_history (d : disk) (entry : HistoryEntry) (w : world) :
  meeting_history (fst (_save_meeting_to_history d entry w))
  = take 20 (entry :: meeting_history w).
Proof. destruct d as [| e | e []]; reflexivity. Qed.

Lemma save_disk_ok (entry : HistoryEntry) (w : world) :
  _save_meeting_to_history disk_ok entry w
  = ({| meeting_history := take 20 (entry :: meeting_history w);
        history_view := history_view w;
        practice_history := practice_history w;
        HISTORY_FILE := file_holds (take 20 (entry :: meeting_history w));
        page := page w |}, Returned tt).
Proof. reflexivity. Qed.

Lemma save_returns_only_on_disk_ok (d : disk) (entry : HistoryEntry)
    (w w' : world) :
  _save_meeting_to_history d entry w = (w', Returned tt) -> d = disk_ok.
Proof. destruct d as [| e | e []]; [reflexivity | discriminate ..]. Qed.

Lemma save_touches_history_only (d : disk) (entry : HistoryEntry) (w : world) :
  let w' := fst (_save_meeting_to_history d entry w) in
  practice_history w' = practice_history w
  /\ history_view w' = history_view w
  /\ page w' = page w.
Proof. destruct d as [| e | e []]; repeat split. Qed.

Lemma run_appends_history (calls : list (disk * HistoryEntry)) (w : world) :
  (length (meeting_history w) <= 20)%nat ->
  meeting_history (run_appends calls w)
  = take 20 (reverse (calls.*2) ++ meeting_history w).
Proof.
  revert w. induction calls as [| [d entry] rest IH]; intros w Hw.
  - cbn. now rewrite take_ge.
  - cbn [run_appends fmap list_fmap snd]. rewrite IH, save_meeting_history.
    + rewrite take_app_take, reverse_cons, <- app_assoc. reflexivity.
    + rewrite save_meeting_history, length_take. lia.
Qed.

Lemma run_appends_snoc (calls : list (disk * HistoryEntry))
    (d : disk) (entry : HistoryEntry) (w : world) :
  run_appends (calls ++ [(d, entry)]) w
  = fst (_save_meeting_to_history d entry (run_appends calls w)).
Proof.
  revert w. induction calls as [| [d0 e0] rest IH]; intros w; [reflexivity |].
  cbn [run_appends app]. apply IH.
Qed.

(** C3: starting from at most 20 entries, every append puts the new entry
    in front and keeps the first 20; after more than 20 appends the store
    holds exactly 20 entries, the last 20 appended with the most recent
    first, so position [j] holds the entry of call [N - j]; an entry of
    call [N - 20] or earlier is gone (the entries being told apart); and
    when the last write went through, the file holds the same list. *)
Theorem history_cap_after_appends (w : world)
    (calls : list (disk * HistoryEntry))
    (Hstart : (length (meeting_history w) <= 20)%nat)
    (Hmany : (20 < length calls)%nat) :
  let N := length calls in
  let appended := calls.*2 in
  let store := meeting_history (run_appends calls w) in
  (forall d entry w0,
      meeting_history (fst (_save_meeting_to_history d entry w0))
      = take 20 (entry :: meeting_history w0))
  /\ length store = 20%nat
  /\ store = take 20 (reverse appended)
  /\ (forall j, (j < 20)%nat -> store !! j = appended !! (N - 1 - j)%nat)
  /\ (NoDup appended ->
      forall i entry, (i + 20 < N)%nat -> appended !! i = Some entry ->
                      entry ∉ store)
  /\ (forall d entry, last calls = Some (d, entry) -> d = disk_ok ->
      HISTORY_FILE (run_appends calls w) = file_holds store).
Proof.
  intros N appended store. subst N appended.
  assert (HN : length (calls.*2) = length calls) by apply length_fmap.
  assert (Hstore : store = take 20 (reverse (calls.*2))).
  { unfold store. rewrite run_appends_history by assumption.
    rewrite take_app_le; [reflexivity |]. rewrite length_reverse. lia. }
  assert (Hpos : forall j, (j < 20)%nat ->
                           store !! j = calls.*2 !! (length calls - 1 - j)%nat).
  { intros j Hj. rewrite Hstore, lookup_take_lt by assumption.
    rewrite reverse_lookup by lia. f_equal. lia. }
  split; [apply save_meeting_history |].
  split; [rewrite Hstore, length_take, length_reverse; lia |].
  split; [exact Hstore |]. split; [exact Hpos |]. split.
  - intros Hnd i entry Hi Hentry Hin.
    apply list_elem_of_lookup in Hin as [j Hj].
    assert (Hj20 : (j < 20)%nat).
    { apply lookup_lt_Some in Hj. rewrite Hstore, length_take in Hj. lia. }
    rewrite Hpos in Hj by assumption.
    pose proof (NoDup_lookup _ _ _ _ Hnd Hentry Hj). lia.
  - intros d entry Hlast Hd. subst d.
    apply last_Some in Hlast as [front Hcalls].
    unfold store. rewrite Hcalls, run_appends_snoc, save_disk_ok. reflexivity.
Qed.

Lemma history_cap_after_appends_witness :
  (length (meeting_history empty_world) <= 20)%nat
  /\ (20 < length (sample_calls 21))%nat
  /\ length (meeting_history (run_appends (sample_calls 21) empty_world))
     = 20%nat
  /\ meeting_history (run_appends (sample_calls 21) empty_world) !! 0%nat
     = Some (sample_entry 21).
Proof.
  assert (H1 : (length (meeting_history empty_world) <= 20)%nat)
    by (vm_compute; lia).
  assert (H2 : (20 < length (sample_calls 21))%nat) by (vm_compute; lia).
  split; [exact H1 |]. split; [exact H2 |].
  destruct (history_cap_after_appends empty_world (sample_calls 21) H1 H2)
    as (_ & Hlen & _ & Hpos & _).
  split; [exact Hlen |]. rewrite Hpos by lia. reflexivity.
Defined.

(** C10: an append that completes leaves the session list and the list in
    the file equal, element for element, and of length at most 20; what
    was written is the capped list. *)
Theorem append_mirrors_file (d : disk) (entry : HistoryEntry) (w w' : world)
    (Hdone : _save_meeting_to_history d entry w = (w', Returned tt)) :
  HISTORY_FILE w' = file_holds (meeting_history w')
  /\ (length (meeting_history w') <= 20)%nat
  /\ meeting_history w' = take 20 (entry :: meeting_history w).
Proof.
  pose proof (save_returns_only_on_disk_ok _ _ _ _ Hdone) as ->.
  rewrite save_disk_ok in Hdone. injection Hdone as <-. cbn.
  split; [reflexivity |]. split; [| reflexivity].
  rewrite length_take. lia.
Qed.

Lemma append_mirrors_file_witness :
  let w := run_appends (sample_calls 20) empty_world in
  let w' := fst (_save_meeting_to_history disk_ok (sample_entry 21) w) in
  _save_meeting_to_history disk_ok (sample_entry 21) w = (w', Returned tt)
  /\ HISTORY_FILE w' = file_holds (meeting_history w')
  /\ (length (meeting_history w') <= 20)%nat.
Proof.
  intros w w'.
  assert (H : _save_meeting_to_history disk_ok (sample_entry 21) w
              = (w', Returned tt)) by reflexivity.
  split; [exact H |].
  destruct (append_mirrors_file _ _ _ _ H) as (Hfile & Hlen & _).
  split; assumption.
Defined.



(** Outside the amended claim: an error of [exists()] other than "no such
    file" is raised to the caller, the call being in front of the
    [try]. *)
Example read_history_file_stat_error (w : world) :
  _read_history_file (Some permission_denied) w = (w, Raised permission_denied)
  /\ start_session (Some permission_denied) (HISTORY_FILE w)
     = session_start_raised permission_denied.
Proof. split; reflexivity. Qed.

(** A session starts from what the file holds, or from nothing. *)
Lemma start_session_history (f : history_file) :
  start_session None f
  = match f with
    | file_holds_json v => session_holds v
    | file_holds entries =>
      session_started {| meeting_history := entries; history_view := None;
                         practice_history := []; HISTORY_FILE := f;
                         page := [] |}
    | file_absent | file_unreadable _ | file_malformed _ =>
      session_started {| meeting_history := []; history_view := None;
                         practice_history := []; HISTORY_FILE := f;
                         page := [] |}
    end.
Proof. destruct f; reflexivity. Qed.

(** C7 (the code at the failing input): when the file system refuses the
    write, [_save_meeting_to_history] raises the error to its caller, with
    the session list already replaced; nothing on the way catches it. *)
Theorem save_write_failure_propagates (exc : exn) (opened : bool)
    (entry : HistoryEntry) (w : world) :
  snd (_save_meeting_to_history (mkdir_raises exc) entry w) = Raised exc
  /\ snd (_save_meeting_to_history (write_text_raises exc opened) entry w)
     = Raised exc
  /\ snd (prepare_meeting steady_backend tt (mkdir_raises exc)
            (lit "2024-05-01T09:00:00") acme [] [] [] w) = Raised exc.
Proof. destruct opened; repeat split. Qed.

(** On that run the brief is shown and the session list is updated, but
    the handler ends before it reports the brief as archived. *)
Example prepare_meeting_disk_full :
  let w := fst (prepare_meeting steady_backend tt (mkdir_raises disk_full)
                  (lit "2024-05-01T09:00:00") acme [] [] [] empty_world) in
  length (meeting_history w) = 1%nat
  /\ HISTORY_FILE w = file_absent
  /\ history_view w = None
  /\ page w = [st_markdown (lit "Executive brief");
               st_download_button (lit "Download meeting brief as .md")
                 (lit "Executive brief")].
Proof. repeat split. Qed.

(** *** The sequential crew *)

Section Crew.

Context {B : Type}.
Variable generate : backend B.

(** A call that raised is the last call of the run: nothing is retried
    and no later task is started. *)
Lemma run_sequential_raised_last (tasks : list Task) (b : B) (i : nat)
    (t : Task) (exc : exn) :
  run_sequential generate b tasks !! i = Some (t, Raised exc) ->
  S i = length (run_sequential generate b tasks).
Proof.
  revert b i. induction tasks as [| t0 rest IH]; intros b i; cbn.
  - intros H. discriminate H.
  - destruct (generate b t0) as [b' [r | e]]; destruct i as [| i]; cbn.
    + intros H. discriminate H.
    + intros H. f_equal. now apply IH.
    + reflexivity.
    + intros H. discriminate H.
Qed.

(** Every task is called at most once, in the order of the list. *)
Lemma run_sequential_prefix (tasks : list Task) (b : B) :
  (run_sequential generate b tasks).*1 `prefix_of` tasks.
Proof.
  revert b. induction tasks as [| t0 rest IH]; intros b; cbn.
  - reflexivity.
  - destruct (generate b t0) as [b' [r | e]]; cbn.
    + apply prefix_cons, IH.
    + apply prefix_cons, prefix_nil.
Qed.

Lemma kickoff_raises (tasks : list Task) (b : B) (t : Task) (exc : exn) :
  (t, Raised exc) ∈ run_sequential generate b tasks ->
  kickoff generate b tasks = Raised exc.
Proof.
  intros Hin. apply list_elem_of_lookup in Hin as [i Hi].
  pose proof (run_sequential_raised_last _ _ _ _ _ Hi) as Hlast.
  unfold kickoff. rewrite last_lookup, <- Hlast. cbn. now rewrite Hi.
Qed.

(** A run in which no call raised went through all the tasks. *)
Lemma run_sequential_complete (tasks : list Task) (b : B) :
  (forall t exc, (t, Raised exc) ∉ run_sequential generate b tasks) ->
  (run_sequential generate b tasks).*1 = tasks.
Proof.
  revert b. induction tasks as [| t0 rest IH]; intros b; cbn; [reflexivity |].
  destruct (generate b t0) as [b' [r | e]]; cbn; intros Hno.
  - f_equal. apply IH. intros t exc Hin. apply (Hno t exc). now right.
  - exfalso. apply (Hno t0 e). now left.
Qed.

Lemma kickoff_or_report_raised (b : B) (tasks : list Task) (what : text)
    (exc : exn) (w : world) :
  kickoff generate b tasks = Raised exc ->
  kickoff_or_report generate b tasks what w
  = ({| meeting_history := meeting_history w;
        history_view := history_view w;
        practice_history := practice_history w;
        HISTORY_FILE := HISTORY_FILE w;
        page := page w ++ [st_error (what ++ exn_str exc)] |}, Returned None).
Proof.
  intros H. unfold kickoff_or_report, try_except, bind, lift. now rewrite H.
Qed.

Lemma kickoff_or_report_returned (b : B) (tasks : list Task) (what : text)
    (r : crew_result) (w : world) :
  kickoff generate b tasks = Returned r ->
  kickoff_or_report generate b tasks what w = (w, Returned (Some r)).
Proof.
  intros H. unfold kickoff_or_report, try_except, bind, lift. now rewrite H.
Qed.

(** A crew of one task. *)
Lemma kickoff_single (b : B) (t : Task) :
  kickoff generate b [t] = snd (generate b t).
Proof. unfold kickoff. cbn. now destruct (generate b t) as [b' [r | e]]. Qed.

End Crew.

(** *** The main pipeline *)

Lemma prepare_meeting_on_failure {B} (generate : backend B) (b : B)
    (d : disk) (now : text) (f : form) (docs : list document)
    (context directives : text) (w : world) (exc : exn) :
  truthy (company_name f) = true ->
  truthy (meeting_objective f) = true ->
  kickoff generate b (meeting_prep_tasks f context directives) = Raised exc ->
  prepare_meeting generate b d now f docs context directives w
  = ({| meeting_history := meeting_history w;
        history_view := history_view w;
        practice_history := practice_history w;
        HISTORY_FILE := HISTORY_FILE w;
        page := page w
                ++ [st_error (lit "Error preparing meeting: " ++ exn_str exc)] |},
     Returned tt).
Proof.
  intros Hc Ho Hk. unfold prepare_meeting. rewrite Hc, Ho. cbn [negb orb].
  unfold bind at 1. now rewrite (kickoff_or_report_raised _ _ _ _ exc) by exact Hk.
Qed.

(** C1: in a pipeline run (the form is filled in) in which a task call
    raises, that call is the last one made; the handler shows no result
    text, puts exactly one error on the page, and leaves the session
    history and the history file as they were. *)
Theorem failed_run_writes_nothing {B} (generate : backend B) (b : B)
    (d : disk) (now : text) (f : form) (docs : list document)
    (context directives : text) (w : world) (t : Task) (exc : exn)
    (Hcompany : truthy (company_name f) = true)
    (Hobjective : truthy (meeting_objective f) = true)
    (Hfail : (t, Raised exc)
             ∈ run_sequential generate b
                 (meeting_prep_tasks f context directives)) :
  let calls :=
    run_sequential generate b (meeting_prep_tasks f context directives) in
  let w' := fst (prepare_meeting generate b d now f docs context directives w) in
  last calls = Some (t, Raised exc)
  /\ (forall i t' exc', calls !! i = Some (t', Raised exc') ->
                        S i = length calls)
  /\ snd (prepare_meeting generate b d now f docs context directives w)
     = Returned tt
  /\ page w'
     = page w ++ [st_error (lit "Error preparing meeting: " ++ exn_str exc)]
  /\ meeting_history w' = meeting_history w
  /\ HISTORY_FILE w' = HISTORY_FILE w
  /\ history_view w' = history_view w.
Proof.
  intros calls w'. subst w'.
  pose proof (kickoff_raises _ _ _ _ _ Hfail) as Hk.
  rewrite (prepare_meeting_on_failure _ _ _ _ _ _ _ _ _ exc) by assumption.
  cbn [fst snd meeting_history HISTORY_FILE history_view page].
  split.
  - apply list_elem_of_lookup in Hfail as [i Hi].
    pose proof (run_sequential_raised_last _ _ _ _ _ _ Hi) as Hlast.
    unfold calls. rewrite last_lookup, <- Hlast. exact Hi.
  - split; [intros i t' exc'; apply run_sequential_raised_last |].
    repeat split.
Qed.

(** A failure at stage 3 of 6: three calls were made, the last one
    raised, and the page shows the one error. *)
Lemma failed_run_writes_nothing_witness :
  let tasks := meeting_prep_tasks acme [] fallback_bullet in
  let w' := fst (prepare_meeting third_call_fails 0%nat disk_ok
                   (lit "2024-05-01T09:00:00") acme [] [] fallback_bullet
                   (run_appends (sample_calls 2) empty_world)) in
  length (run_sequential third_call_fails 0%nat tasks) = 3%nat
  /\ page w' = [st_error (lit "Error preparing meeting: Request timed out")]
  /\ meeting_history w' = [sample_entry 2; sample_entry 1]
  /\ HISTORY_FILE w' = file_holds [sample_entry 2; sample_entry 1].
Proof.
  intros tasks w'.
  assert (Hfail :
            ({| task_description :=
                  stage_prompt strategy_formulator acme [] fallback_bullet;
                agent := strategy_formulator |}, Raised timeout_error)
            ∈ run_sequential third_call_fails 0%nat tasks).
  { apply list_elem_of_lookup. exists 2%nat. reflexivity. }
  destruct (failed_run_writes_nothing third_call_fails 0%nat disk_ok
              (lit "2024-05-01T09:00:00") acme [] [] fallback_bullet
              (run_appends (sample_calls 2) empty_world) _ _
              eq_refl eq_refl Hfail)
    as (_ & _ & _ & Hpage & Hhist & Hfile & _).
  subst w'.
  split; [reflexivity |].
  split; [rewrite Hpage; reflexivity |].
  split; [rewrite Hhist; reflexivity |].
  rewrite Hfile. reflexivity.
Defined.

(** The other direction: whenever the handler changes the session history
    or the file, the crew returned, after calling all six tasks without an
    error. *)
Lemma history_written_only_after_success {B} (generate : backend B) (b : B)
    (d : disk) (now : text) (f : form) (docs : list document)
    (context directives : text) (w : world) :
  let tasks := meeting_prep_tasks f context directives in
  let w' := fst (prepare_meeting generate b d now f docs context directives w) in
  meeting_history w' <> meeting_history w \/ HISTORY_FILE w' <> HISTORY_FILE w ->
  (exists r, kickoff generate b tasks = Returned r)
  /\ (run_sequential generate b tasks).*1 = tasks
  /\ (forall t exc, (t, Raised exc) ∉ run_sequential generate b tasks).
Proof.
  intros tasks w' Hchanged.
  assert (Hform : truthy (company_name f) = true
                  /\ truthy (meeting_objective f) = true).
  { subst w'. unfold prepare_meeting in Hchanged.
    destruct (truthy (company_name f)), (truthy (meeting_objective f));
      cbn in Hchanged; try (split; reflexivity);
      destruct Hchanged as [H | H]; now elim H. }
  destruct Hform as [Hc Ho].
  assert (Hno : forall t exc, (t, Raised exc) ∉ run_sequential generate b tasks).
  { intros t exc Hin. pose proof (kickoff_raises _ _ _ _ _ Hin) as Hk.
    subst w'. rewrite (prepare_meeting_on_failure _ _ _ _ _ _ _ _ _ exc)
      in Hchanged by assumption.
    cbn in Hchanged. destruct Hchanged as [H | H]; now elim H. }
  split; [| split; [now apply run_sequential_complete | exact Hno]].
  destruct (kickoff generate b tasks) as [r | exc] eqn:Hk; [now exists r |].
  exfalso. subst w'.
  rewrite (prepare_meeting_on_failure _ _ _ _ _ _ _ _ _ exc) in Hchanged
    by assumption.
  cbn in Hchanged. destruct Hchanged as [H | H]; now elim H.
Qed.

(** *** The one-shot invocations *)

(** C8, as stated, fails for response scoring: the user's turn is put on
    the practice log before the backend is called, and it stays there
    when the call raises. *)
Lemma failed_scoring_changes_practice_session :
  let w' := fst (score_response backend_down tt acme
                   (lit "We can phase the rollout.") empty_world) in
  page w' = [st_error (lit "Error scoring response: Request timed out")]
  /\ practice_history w' <> practice_history empty_world.
Proof. split; [reflexivity | discriminate]. Qed.

(** C8 (amended): when the backend call of a one-shot invocation raises,
    the handler returns normally with one error on the page; the session
    history, the history file and the selected brief are as before; the
    practice log is as before for transcript summarization and objection
    generation, and for response scoring it is the log as before followed
    by the user's response, with no coach turn added. *)
Theorem failed_ancillary_call_state {B} (generate : backend B) (b : B)
    (d : disk) (now : text) (f : form) (a : ancillary) (w : world) (exc : exn)
    (Hcalled : calls_backend a = true)
    (Hfail : snd (generate b (ancillary_task f (practice_history w) a))
             = Raised exc) :
  ancillary_handler generate b d now f a w
  = ({| meeting_history := meeting_history w;
        history_view := history_view w;
        practice_history := practice_history w ++ recorded_before_call a;
        HISTORY_FILE := HISTORY_FILE w;
        page := page w ++ [st_error (error_prefix a ++ exn_str exc)] |},
     Returned tt).
Proof.
  destruct a as [transcript_text save_to_library | | user_resp];
    cbn [ancillary_handler calls_backend ancillary_task recorded_before_call
           error_prefix] in *.
  - unfold summarize_transcript. rewrite Hcalled. unfold bind at 1.
    rewrite (kickoff_or_report_raised _ _ _ _ exc)
      by (now rewrite kickoff_single).
    cbn. now rewrite app_nil_r.
  - unfold ask_next_objection. unfold bind at 1. cbn [get].
    unfold bind at 1.
    rewrite (kickoff_or_report_raised _ _ _ _ exc)
      by (now rewrite kickoff_single).
    cbn. now rewrite app_nil_r.
  - unfold score_response. rewrite Hcalled.
    unfold bind at 1, append_turn, bind at 1, get, set_practice_history.
    cbn [practice_history]. unfold bind at 1. cbn [practice_history].
    unfold bind at 1.
    rewrite (kickoff_or_report_raised _ _ _ _ exc)
      by (now rewrite kickoff_single).
    reflexivity.
Qed.

Lemma failed_ancillary_call_state_witness :
  let w := run_appends (sample_calls 2) empty_world in
  calls_backend next_objection = true
  /\ snd (backend_down tt (ancillary_task acme (practice_history w)
                             next_objection)) = Raised timeout_error
  /\ practice_history
       (fst (ancillary_handler backend_down tt disk_ok [] acme
               next_objection w)) = practice_history w
  /\ meeting_history
       (fst (ancillary_handler backend_down tt disk_ok [] acme
               next_objection w)) = meeting_history w.
Proof.
  intros w. split; [reflexivity |]. split; [reflexivity |].
  rewrite (failed_ancillary_call_state backend_down tt disk_ok [] acme
             next_objection w timeout_error eq_refl eq_refl).
  cbn [fst practice_history meeting_history recorded_before_call].
  split; [apply app_nil_r | reflexivity].
Defined.

(** *** Context assembly *)

(** Without documents the digest is the placeholder sentence. *)
Lemma digest_without_documents (truncate_chars : option Z) :
  _build_document_digest truncate_chars []
  = lit "No additional supporting documents were provided.".
Proof. reflexivity. Qed.

Local Ltac directive_membership :=
  match goal with
  | |- _ ∈ _ <-> true = true =>
    split; [reflexivity | intros _];
    repeat first [apply list_elem_of_here | apply list_elem_of_further]
  | |- _ ∈ _ <-> false = true =>
    split; [| discriminate]; intros H; exfalso;
    refine (bool_decide_eq_false_1 _ _ H); vm_compute; reflexivity
  end.

(** C9: the directives are the sentences of the conditions that hold
    (live refresh, regulatory emphasis, notes supplied), one each, in
    that order; the text is these sentences, each behind "- " and on a
    line of its own, so it has one line per condition that holds and
    every line starts with "- "; and with both toggles off and no notes
    it is the one line "- Focus on actionable intelligence.". *)
Theorem directive_assembly (include_live_updates include_regulatory : bool)
    (meeting_notes : text) :
  let ds :=
    context_directives include_live_updates include_regulatory meeting_notes in
  let rendered :=
    context_directives_text include_live_updates include_regulatory
      meeting_notes in
  let live :=
    lit "Incorporate the most recent news, market movements, and growth signals discovered via live search." in
  let regulatory :=
    lit "Highlight regulatory, compliance, and localization considerations that could influence the meeting." in
  let notes :=
    lit "Bridge insights with the historical notes provided to emphasize continuity and momentum." in
  let dash := [45; 32]%N in
  let nl := [10%N] in
  ds = (if include_live_updates then [live] else [])
       ++ (if include_regulatory then [regulatory] else [])
       ++ (if truthy meeting_notes then [notes] else [])
  /\ rendered
     = match include_live_updates, include_regulatory, truthy meeting_notes with
       | true, true, true =>
         dash ++ live ++ nl ++ dash ++ regulatory ++ nl ++ dash ++ notes
       | true, true, false => dash ++ live ++ nl ++ dash ++ regulatory
       | true, false, true => dash ++ live ++ nl ++ dash ++ notes
       | false, true, true => dash ++ regulatory ++ nl ++ dash ++ notes
       | true, false, false => dash ++ live
       | false, true, false => dash ++ regulatory
       | false, false, true => dash ++ notes
       | false, false, false =>
         dash ++ lit "Focus on actionable intelligence."
       end
  /\ length (splitlines rendered)
     = Nat.max 1 (Nat.b2n include_live_updates + Nat.b2n include_regulatory
                  + Nat.b2n (truthy meeting_notes))
  /\ Forall (fun line => take 2 line = dash) (splitlines rendered)
  /\ (ds <> [] ->
      splitlines rendered = List.map (fun directive => dash ++ directive) ds)
  /\ ds `sublist_of` [live_directive; regulatory_directive; notes_directive]
  /\ (live_directive ∈ ds <-> include_live_updates = true)
  /\ (regulatory_directive ∈ ds <-> include_regulatory = true)
  /\ (notes_directive ∈ ds <-> truthy meeting_notes = true)
  /\ length ds
     = (Nat.b2n include_live_updates + Nat.b2n include_regulatory
        + Nat.b2n (truthy meeting_notes))%nat
  /\ rendered
     = match ds with
       | [] => fallback_bullet
       | _ => join [newline] (List.map bullet ds)
       end
  /\ (include_live_updates = false -> include_regulatory = false ->
      meeting_notes = [] ->
      ds = [] /\ rendered = lit "- Focus on actionable intelligence.").
Proof.
  intros ds rendered live regulatory notes dash nl.
  subst ds rendered live regulatory notes dash nl.
  unfold context_directives_text, context_directives.
  destruct include_live_updates, include_regulatory,
    (truthy meeting_notes) eqn:Hnotes; cbn [app Nat.b2n Nat.add].
  all: split; [reflexivity |].
  all: split; [reflexivity |].
  all: split; [vm_compute; reflexivity |].
  all: split; [vm_compute; repeat constructor |].
  all: split; [first [intros _; vm_compute; reflexivity
                     | intros H; now elim H] |].
  all: split;
    [ repeat first [ apply sublist_nil | apply sublist_skip
                   | apply sublist_cons ] |].
  all: split; [directive_membership |].
  all: split; [directive_membership |].
  all: split; [directive_membership |].
  all: split; [reflexivity |].
  all: split; [reflexivity |].
  all: try (intros; discriminate).
  all: intros _ _ ->; first [discriminate Hnotes | split; reflexivity].
Qed.

(** *** Result normalization *)

Lemma truthy_nonempty (s : text) : truthy s = true <-> s <> [].
Proof. destruct s; cbn; split; congruence. Qed.

Section Normalization.

Variable o : pyobject.

Lemma first_text_field_none (attrs : list string) :
  (forall a, a ∈ attrs -> no_text o a) ->
  first_text_field o attrs = None.
Proof.
  induction attrs as [| attr rest IH]; intros Hno; [reflexivity |].
  assert (Hrest : first_text_field o rest = None).
  { apply IH. intros a Ha. apply Hno. now right. }
  cbn. unfold getattr_or_None.
  destruct (getattribute o attr) as [| e | [s |]] eqn:Hattr; try exact Hrest.
  destruct (truthy (strip s)) eqn:Hs; [| exact Hrest].
  exfalso. apply (Hno attr (list_elem_of_here _ _) s).
  split; [exact Hattr | now apply truthy_nonempty].
Qed.

Lemma first_text_field_found (attrs : list string) (i : nat) (attr : string)
    (s : text) :
  attrs !! i = Some attr ->
  holds_text o attr s ->
  (forall j a, (j < i)%nat -> attrs !! j = Some a -> no_text o a) ->
  first_text_field o attrs = Some s.
Proof.
  revert i. induction attrs as [| a0 rest IH]; intros i Hi [Hattr Hs] Hbefore.
  - discriminate Hi.
  - destruct i as [| i]; cbn in Hi.
    + injection Hi as ->. cbn. unfold getattr_or_None. rewrite Hattr.
      apply truthy_nonempty in Hs. now rewrite Hs.
    + assert (Hrest : first_text_field o rest = Some s).
      { apply (IH i Hi); [now split |].
        intros j a Hj Ha. apply (Hbefore (S j) a); [lia | exact Ha]. }
      assert (H0 : no_text o a0) by (apply (Hbefore 0%nat a0); [lia | reflexivity]).
      cbn. unfold getattr_or_None.
      destruct (getattribute o a0) as [| e | [s0 |]] eqn:Ha0; try exact Hrest.
      destruct (truthy (strip s0)) eqn:Hs0; [| exact Hrest].
      exfalso. apply (H0 s0). split; [exact Ha0 | now apply truthy_nonempty].
Qed.

End Normalization.

(** C4, as stated, fails: a [raw] field holding a single space is a
    non-empty string, and is passed over; the object, which has nothing
    else, comes out as its [str()]. *)
Lemma blank_raw_field_is_skipped :
  getattribute blank_raw_result "raw" = present (py_str (lit " "))
  /\ truthy (lit " ") = true
  /\ (forall attr, attr <> "raw"%string ->
                   getattribute blank_raw_result attr = absent)
  /\ _result_to_markdown (object blank_raw_result) = Returned (lit "<Result>")
  /\ _result_to_markdown (object blank_raw_result) <> Returned (lit " ").
Proof.
  split; [reflexivity |]. split; [reflexivity |]. split.
  - intros attr Hattr. cbn. apply String.eqb_neq in Hattr. now rewrite Hattr.
  - split; [reflexivity | discriminate].
Qed.

(** C4 (amended): a plain string comes back as it is.  For an object
    whose [to_dict] lookup does not itself raise, normalization returns a
    text.  The fields [raw], [final_output], [result], [output] are tried
    in that order and the first one that holds a string with a
    non-whitespace character in it is returned as it is; in particular a
    [raw] field with such a text.  When no field qualifies, the dict
    export is returned if it is there and can be dumped, else [str()] of
    the object, else the empty string. *)
Theorem result_to_markdown_contract (o : pyobject) :
  (forall s, _result_to_markdown (plain s) = Returned s)
  /\ ((forall e, to_dict o <> raising e) ->
      exists s, _result_to_markdown (object o) = Returned s)
  /\ (forall i attr s,
        text_fields !! i = Some attr -> holds_text o attr s ->
        (forall j a, (j < i)%nat -> text_fields !! j = Some a -> no_text o a) ->
        _result_to_markdown (object o) = Returned s)
  /\ (forall s, holds_text o "raw" s ->
                _result_to_markdown (object o) = Returned s)
  /\ ((forall a, a ∈ text_fields -> no_text o a) ->
      (forall dumped, to_dict o = present (Returned dumped) ->
                      _result_to_markdown (object o) = Returned dumped)
      /\ (to_dict o = absent \/ (exists e, to_dict o = present (Raised e)) ->
          _result_to_markdown (object o) = Returned (str_fallback o))
      /\ (forall s, __str__ o = Returned s -> str_fallback o = s)
      /\ (forall e, __str__ o = Raised e -> str_fallback o = [])).
Proof.
  assert (Hprio : forall i attr s,
             text_fields !! i = Some attr -> holds_text o attr s ->
             (forall j a, (j < i)%nat -> text_fields !! j = Some a ->
                          no_text o a) ->
             _result_to_markdown (object o) = Returned s).
  { intros i attr s Hi Hs Hbefore. unfold _result_to_markdown.
    now rewrite (first_text_field_found o text_fields i attr s). }
  split; [reflexivity |]. split.
  - intros Hprobe. unfold _result_to_markdown.
    destruct (first_text_field o text_fields) as [s |]; [now exists s |].
    unfold hasattr_to_dict.
    destruct (to_dict o) as [| e | [dumped | e]]; eauto.
    now elim (Hprobe e).
  - split; [exact Hprio |]. split.
    + intros s Hs. apply (Hprio 0%nat "raw"%string s); [reflexivity | exact Hs |].
      intros j a Hj. lia.
    + intros Hnone. unfold _result_to_markdown.
      rewrite (first_text_field_none o text_fields Hnone).
      unfold hasattr_to_dict, str_fallback.
      split; [intros dumped ->; reflexivity |].
      split; [intros [-> | [e ->]]; reflexivity |].
      split; [intros s ->; reflexivity | intros e ->; reflexivity].
Qed.

Lemma result_to_markdown_contract_witness :
  holds_text raw_only_result "raw" (lit "# Brief")
  /\ _result_to_markdown (object raw_only_result) = Returned (lit "# Brief").
Proof.
  assert (H : holds_text raw_only_result "raw" (lit "# Brief"))
    by (split; [reflexivity | discriminate]).
  split; [exact H |].
  destruct (result_to_markdown_contract raw_only_result)
    as (_ & _ & _ & Hraw & _).
  apply Hraw, H.
Defined.

(** Outside the amended contract: when the lookup of [to_dict] raises,
    so does the normalization; the lookup is not inside a [try]. *)
Example broken_export_raises :
  _result_to_markdown (object broken_export_result)
  = Raised (Exception (lit "export unavailable")).
Proof. reflexivity. Qed.

(** *** Document ingestion *)

Lemma decode_invalid_start (b : Byte.byte) (rest : list Byte.byte) :
  invalid_start b = true ->
  decode_utf8_ignore (b :: rest) = decode_utf8_ignore rest.
Proof.
  unfold invalid_start. intros H. cbn [decode_utf8_ignore].
  destruct (N.ltb_spec (byte_val b) 128), (N.ltb_spec (byte_val b) 194),
    (N.ltb_spec (byte_val b) 224), (N.ltb_spec (byte_val b) 240),
    (N.ltb_spec (byte_val b) 245), (N.leb_spec 128 (byte_val b)),
    (N.leb_spec 245 (byte_val b));
    cbn in H; try discriminate H; try reflexivity; lia.
Qed.

Lemma decode_ascii (b : Byte.byte) (rest : list Byte.byte) :
  (byte_val b < 128)%N ->
  decode_utf8_ignore (b :: rest) = byte_val b :: decode_utf8_ignore rest.
Proof.
  intros H. cbn [decode_utf8_ignore].
  destruct (N.ltb_spec (byte_val b) 128); [reflexivity | lia].
Qed.

(** C5, as stated, fails: the bytes that cannot be decoded are dropped,
    not replaced, so a text file made of such bytes decodes to the empty
    string and is left out of the documents, without a warning. *)
Lemma undecodable_file_is_skipped :
  endswith (lower (name undecodable_notes)) (lit ".pdf") = false
  /\ getvalue undecodable_notes <> []
  /\ decode_utf8_ignore (getvalue undecodable_notes) = []
  /\ _extract_supporting_documents no_pdf_reader [undecodable_notes] = ([], []).
Proof. repeat split. discriminate. Qed.

(** C5 (amended): a non-empty file whose name does not end in [.pdf] is
    decoded as UTF-8 with the bytes that cannot be decoded dropped (a
    byte that cannot start a sequence vanishes, an ASCII byte is kept);
    this never raises and never warns; the file becomes a document, with
    the decoded text trimmed, exactly when that text is not empty, and is
    left out otherwise. *)
Theorem text_file_ingestion (PdfReader : pdf_reader) (uploaded : uploaded_file)
    (Hname : endswith (lower (name uploaded)) (lit ".pdf") = false)
    (Hbytes : getvalue uploaded <> []) :
  let decoded := strip (decode_utf8_ignore (getvalue uploaded)) in
  ingest_one PdfReader uploaded
  = (if truthy decoded
     then Some {| doc_name := name uploaded; doc_content := decoded |}
     else None, [])
  /\ (forall b rest, invalid_start b = true ->
        decode_utf8_ignore (b :: rest) = decode_utf8_ignore rest)
  /\ (forall b rest, (byte_val b < 128)%N ->
        decode_utf8_ignore (b :: rest) = byte_val b :: decode_utf8_ignore rest)
  /\ (forall more,
        _extract_supporting_documents PdfReader (uploaded :: more)
        = ((if truthy decoded
            then [{| doc_name := name uploaded; doc_content := decoded |}]
            else []) ++ fst (_extract_supporting_documents PdfReader more),
           snd (_extract_supporting_documents PdfReader more))).
Proof.
  intros decoded.
  assert (Hone : ingest_one PdfReader uploaded
                 = (if truthy decoded
                    then Some {| doc_name := name uploaded;
                                 doc_content := decoded |}
                    else None, [])).
  { unfold ingest_one. rewrite Hname.
    destruct (getvalue uploaded) as [| b0 bs] eqn:Hv; [now elim Hbytes |].
    fold decoded. now destruct (truthy decoded). }
  split; [exact Hone |].
  split; [apply decode_invalid_start |]. split; [apply decode_ascii |].
  intros more. cbn [_extract_supporting_documents]. rewrite Hone.
  destruct (_extract_supporting_documents PdfReader more) as [ds ws].
  now destruct (truthy decoded).
Qed.

Lemma text_file_ingestion_witness :
  endswith (lower (name stray_byte_notes)) (lit ".pdf") = false
  /\ getvalue stray_byte_notes <> []
  /\ ingest_one no_pdf_reader stray_byte_notes
     = (Some {| doc_name := lit "notes.md"; doc_content := lit "AB" |}, []).
Proof.
  assert (H1 : endswith (lower (name stray_byte_notes)) (lit ".pdf") = false)
    by reflexivity.
  assert (H2 : getvalue stray_byte_notes <> []) by discriminate.
  split; [exact H1 |]. split; [exact H2 |].
  destruct (text_file_ingestion no_pdf_reader stray_byte_notes H1 H2)
    as (Hone & _).
  rewrite Hone. reflexivity.
Defined.

(** ** Further properties of the helpers *)

(** *** Truncation, digest and snapshots *)

Lemma truncate_take (T : text) (B : Z) :
  0 <= B ->
  take (Z.to_nat B) (_truncate_text T B) = take (Z.to_nat B) T.
Proof.
  intros HB. destruct (Z.le_gt_cases (len T) B) as [Hle | Hgt].
  - now rewrite truncate_within.
  - rewrite truncate_beyond by lia.
    rewrite take_app_le by (rewrite length_take; unfold len in Hgt; lia).
    rewrite take_take. f_equal. lia.
Qed.

Lemma truncate_length_le (T : text) (B : Z) :
  0 <= B -> len (_truncate_text T B) <= B + 19.
Proof.
  intros HB. destruct (Z.le_gt_cases (len T) B) as [Hle | Hgt].
  - rewrite truncate_within by assumption. lia.
  - rewrite truncate_beyond by lia. rewrite len_app, truncation_marker_length.
    unfold len in *. rewrite length_take. lia.
Qed.

(** X1: for a budget [B >= 0] the result is never longer than [B + 19]
    characters, never longer than the input plus the marker, and its
    first [B] characters are those of the input. *)
Theorem truncate_bounded_prefix (T : text) (B : Z) (HB : 0 <= B) :
  len (_truncate_text T B) <= B + 19
  /\ len (_truncate_text T B) <= len T + 19
  /\ take (Z.to_nat B) (_truncate_text T B) = take (Z.to_nat B) T.
Proof.
  split; [now apply truncate_length_le |]. split; [| now apply truncate_take].
  destruct (Z.le_gt_cases (len T) B) as [Hle | Hgt].
  - rewrite truncate_within by assumption. unfold len. lia.
  - pose proof (truncate_length_le T B HB). lia.
Qed.

Lemma truncate_bounded_prefix_witness :
  0 <= 4
  /\ len (_truncate_text (lit "quarterly numbers") 4) <= 4 + 19
  /\ take 4 (_truncate_text (lit "quarterly numbers") 4) = lit "quar".
Proof.
  split; [lia |].
  destruct (truncate_bounded_prefix (lit "quarterly numbers") 4 ltac:(lia))
    as (H1 & _ & H3).
  split; [exact H1 | exact H3].
Defined.

(** X2: truncating twice with the same budget is truncating once: a
    preview that was cut is cut at the same place again and gets the
    marker once. *)
Theorem truncate_idempotent (T : text) (B : Z) (HB : 0 <= B) :
  _truncate_text (_truncate_text T B) B = _truncate_text T B.
Proof.
  destruct (Z.le_gt_cases (len T) B) as [Hle | Hgt].
  - rewrite (truncate_within T B) by assumption. now apply truncate_within.
  - assert (Hlen : B < len (_truncate_text T B)).
    { rewrite truncate_beyond by lia.
      rewrite len_app, truncation_marker_length. unfold len in *.
      rewrite length_take. lia. }
    rewrite (truncate_beyond (_truncate_text T B) B) by lia.
    rewrite truncate_take by assumption.
    now rewrite (truncate_beyond T B) by lia.
Qed.

Lemma truncate_idempotent_witness :
  0 <= 4
  /\ _truncate_text (_truncate_text (lit "quarterly numbers") 4) 4
     = lit "quar" ++ truncation_marker.
Proof.
  split; [lia |].
  rewrite (truncate_idempotent (lit "quarterly numbers") 4 ltac:(lia)).
  reflexivity.
Defined.

Lemma join_length_le (sep : text) (parts : list text) :
  len (join sep parts)
  <= foldr (fun p acc => len p + len sep + acc) 0 parts.
Proof.
  induction parts as [| p rest IH]; [reflexivity |].
  cbn [foldr]. destruct rest as [| q rest].
  - cbn. unfold len. lia.
  - change (join sep (p :: q :: rest)) with (p ++ sep ++ join sep (q :: rest)).
    rewrite !len_app. lia.
Qed.

(** X3: with documents and a budget [B >= 0], the digest has for every
    document at most its name, [B] characters of content and 49
    characters of labels, marker and separator; the size of the prompt
    part is bounded by the slider, whatever the documents hold. *)
Theorem digest_length_bound (truncate_chars : option Z)
    (documents : list document)
    (HB : 0 <= truncate_chars_or_default truncate_chars)
    (Hdocs : documents <> []) :
  len (_build_document_digest truncate_chars documents)
  <= foldr (fun doc acc =>
              len (doc_name doc) + truncate_chars_or_default truncate_chars
              + 49 + acc) 0 documents.
Proof.
  destruct documents as [| d0 ds]; [now elim Hdocs |].
  unfold _build_document_digest.
  etransitivity; [apply join_length_le |].
  generalize (d0 :: ds). intros l. induction l as [| d l IH]; [reflexivity |].
  cbn [List.map foldr]. rewrite !len_app.
  pose proof (truncate_length_le (doc_content d)
                (truncate_chars_or_default truncate_chars) HB).
  change (len (lit "Document: ")) with 10.
  change (len (lit "Content Preview:")) with 16.
  change (len [newline]) with 1. change (len [newline; newline]) with 2 in *.
  lia.
Qed.

Lemma digest_length_bound_witness :
  let docs := [{| doc_name := lit "q3.md"; doc_content := lit "Revenue up." |}] in
  0 <= truncate_chars_or_default (Some 1000)
  /\ docs <> []
  /\ len (_build_document_digest (Some 1000) docs) <= 5 + 1000 + 49 + 0.
Proof.
  intros docs.
  assert (H1 : 0 <= truncate_chars_or_default (Some 1000)) by (cbn; lia).
  assert (H2 : docs <> []) by discriminate.
  split; [exact H1 |]. split; [exact H2 |].
  exact (digest_length_bound (Some 1000) docs H1 H2).
Defined.



(** *** Whitespace *)

Lemma lstrip_head (s : text) (c : char) :
  head (lstrip s) = Some c -> is_space c = false.
Proof.
  induction s as [| a s IH]; cbn; [discriminate |].
  destruct (is_space a) eqn:Ha; [exact IH |].
  cbn. intros H. injection H as <-. exact Ha.
Qed.

Lemma lstrip_suffix (s : text) : exists pre, s = pre ++ lstrip s.
Proof.
  induction s as [| a s [pre IH]]; [now exists [] |].
  cbn. destruct (is_space a).
  - exists (a :: pre). cbn. now f_equal.
  - now exists [].
Qed.

Lemma rstrip_prefix (s : text) : exists post, s = rstrip s ++ post.
Proof.
  destruct (lstrip_suffix (reverse s)) as [pre Hpre].
  exists (reverse pre). unfold rstrip.
  rewrite <- reverse_app, <- Hpre. symmetry. apply reverse_involutive.
Qed.

Lemma rstrip_last (s : text) (c : char) :
  last (rstrip s) = Some c -> is_space c = false.
Proof. unfold rstrip. rewrite last_reverse. apply lstrip_head. Qed.

Lemma strip_head (s : text) (c : char) :
  head (strip s) = Some c -> is_space c = false.
Proof.
  unfold strip. intros H. apply (lstrip_head s).
  destruct (rstrip_prefix (lstrip s)) as [post Hpost].
  rewrite Hpost. destruct (rstrip (lstrip s)); [discriminate H | exact H].
Qed.

Lemma strip_last (s : text) (c : char) :
  last (strip s) = Some c -> is_space c = false.
Proof. apply rstrip_last. Qed.

(** *** Ingestion of a set of uploads *)

Lemma ingest_one_some (PdfReader : pdf_reader) (uploaded : uploaded_file)
    (doc : document) (warnings : list ui_event) :
  ingest_one PdfReader uploaded = (Some doc, warnings) ->
  warnings = [] /\ doc_name doc = name uploaded /\ getvalue uploaded <> []
  /\ exists t, doc_content doc = strip t /\ truthy (strip t) = true.
Proof.
  unfold ingest_one.
  destruct (getvalue uploaded) as [| b0 bs] eqn:Hv; [discriminate |].
  set (extracted := if endswith _ _ then _ else _).
  destruct extracted as [t | exc]; [| discriminate].
  destruct (truthy (strip t)) eqn:Ht; [| discriminate].
  intros H. injection H as <- <-. cbn. repeat split; [discriminate |].
  now exists t.
Qed.

Lemma ingest_one_none (PdfReader : pdf_reader) (uploaded : uploaded_file)
    (warnings : list ui_event) :
  ingest_one PdfReader uploaded = (None, warnings) ->
  (length warnings <= 1)%nat.
Proof.
  unfold ingest_one.
  destruct (getvalue uploaded) as [| b0 bs].
  - intros H. injection H as <-. cbn. lia.
  - set (extracted := if endswith _ _ then _ else _).
    destruct extracted as [t | exc].
    + destruct (truthy (strip t)); [discriminate |].
      intros H. injection H as <-. cbn. lia.
    + intros H. injection H as <-. cbn. lia.
Qed.

(** X5: every ingested document carries the name of an uploaded,
    non-empty file, and its content is not empty and neither starts nor
    ends with whitespace. *)
Theorem ingested_documents_trimmed (PdfReader : pdf_reader)
    (uploaded_files : list uploaded_file) (doc : document)
    (Hdoc : doc ∈ fst (_extract_supporting_documents PdfReader uploaded_files)) :
  doc_content doc <> []
  /\ (forall c, head (doc_content doc) = Some c -> is_space c = false)
  /\ (forall c, last (doc_content doc) = Some c -> is_space c = false)
  /\ exists uploaded, uploaded ∈ uploaded_files
                      /\ name uploaded = doc_name doc
                      /\ getvalue uploaded <> [].
Proof.
  induction uploaded_files as [| u rest IH]; cbn in Hdoc.
  - now apply elem_of_nil in Hdoc.
  - destruct (ingest_one PdfReader u) as [[d |] w] eqn:Hone;
      destruct (_extract_supporting_documents PdfReader rest) as [ds ws];
      cbn in Hdoc, IH.
    + apply elem_of_cons in Hdoc as [-> | Hin].
      * apply ingest_one_some in Hone as (_ & Hn & Hv & t & Hc & Ht).
        rewrite Hc. split; [now apply truthy_nonempty |].
        split; [apply strip_head |]. split; [apply strip_last |].
        exists u. split; [left | now split].
      * destruct (IH Hin) as (H1 & H2 & H3 & u' & Hu' & Hrest).
        repeat split; try assumption. exists u'. split; [now right | exact Hrest].
    + destruct (IH Hdoc) as (H1 & H2 & H3 & u' & Hu' & Hrest).
      repeat split; try assumption. exists u'. split; [now right | exact Hrest].
Qed.

Lemma ingested_documents_trimmed_witness :
  let doc := {| doc_name := lit "notes.md"; doc_content := lit "AB" |} in
  doc ∈ fst (_extract_supporting_documents no_pdf_reader
               [undecodable_notes; stray_byte_notes])
  /\ doc_content doc <> [].
Proof.
  intros doc.
  assert (H : doc ∈ fst (_extract_supporting_documents no_pdf_reader
                           [undecodable_notes; stray_byte_notes]))
    by (apply list_elem_of_here).
  split; [exact H |].
  exact (proj1 (ingested_documents_trimmed _ _ _ H)).
Defined.

(** X6: ingestion keeps the order of the uploads and invents nothing:
    the names of the documents are a sub-sequence of the names of the
    files, and every file gives at most one document or one warning. *)
Theorem ingestion_keeps_order (PdfReader : pdf_reader)
    (uploaded_files : list uploaded_file) :
  let r := _extract_supporting_documents PdfReader uploaded_files in
  List.map doc_name (fst r) `sublist_of` List.map name uploaded_files
  /\ (length (fst r) + length (snd r) <= length uploaded_files)%nat.
Proof.
  induction uploaded_files as [| u rest IH]; cbn.
  - split; [apply sublist_nil | lia].
  - destruct (ingest_one PdfReader u) as [[d |] w] eqn:Hone;
      destruct (_extract_supporting_documents PdfReader rest) as [ds ws];
      cbn in IH |- *; destruct IH as [IHs IHl].
    + apply ingest_one_some in Hone as (-> & Hn & _). rewrite Hn.
      split; [now apply sublist_skip | cbn; lia].
    + apply ingest_one_none in Hone.
      split; [now apply sublist_cons | rewrite length_app; lia].
Qed.

(** X7: the uploads are ingested one by one, independently: the result
    for two batches one after the other is the two results one after the
    other. *)
Theorem ingestion_of_batches (PdfReader : pdf_reader)
    (first second : list uploaded_file) :
  _extract_supporting_documents PdfReader (first ++ second)
  = (fst (_extract_supporting_documents PdfReader first)
     ++ fst (_extract_supporting_documents PdfReader second),
     snd (_extract_supporting_documents PdfReader first)
     ++ snd (_extract_supporting_documents PdfReader second)).
Proof.
  induction first as [| u rest IH]; cbn.
  - now destruct (_extract_supporting_documents PdfReader second).
  - rewrite IH. destruct (ingest_one PdfReader u) as [[d |] w];
      destruct (_extract_supporting_documents PdfReader rest) as [ds ws];
      cbn; now rewrite app_assoc.
Qed.

(** *** The PDF branch *)

Lemma page_texts_all (ts : list text) :
  page_texts (List.map Returned ts) = Returned ts.
Proof. induction ts as [| t ts IH]; cbn; [reflexivity | now rewrite IH]. Qed.

Lemma page_texts_raised (before : list text) (exc : exn)
    (after : list (outcome text)) :
  page_texts (List.map Returned before ++ Raised exc :: after) = Raised exc.
Proof. induction before as [| t ts IH]; cbn; [reflexivity | now rewrite IH]. Qed.

(** X8: for a non-empty upload whose name ends in [.pdf] in any case: if
    the reader cannot open it, or a page raises while its text is taken,
    the file gives no document and exactly one warning that names it and
    quotes the error, and the uploads after it are still ingested; if all
    pages give text, the document is the pages joined by newlines and
    trimmed, or nothing when that is empty. *)
Theorem pdf_ingestion (PdfReader : pdf_reader) (uploaded : uploaded_file)
    (Hname : endswith (lower (name uploaded)) (lit ".pdf") = true)
    (Hbytes : getvalue uploaded <> []) :
  let warning exc :=
    st_warning (lit "Could not read " ++ name uploaded ++ lit ": "
                ++ exn_str exc) in
  (forall exc, PdfReader (getvalue uploaded) = Raised exc ->
     ingest_one PdfReader uploaded = (None, [warning exc]))
  /\ (forall before exc after,
        PdfReader (getvalue uploaded)
        = Returned (List.map Returned before ++ Raised exc :: after) ->
        ingest_one PdfReader uploaded = (None, [warning exc]))
  /\ (forall ts,
        PdfReader (getvalue uploaded) = Returned (List.map Returned ts) ->
        ingest_one PdfReader uploaded
        = (if truthy (strip (join [newline] ts))
           then Some {| doc_name := name uploaded;
                        doc_content := strip (join [newline] ts) |}
           else None, []))
  /\ (forall exc more,
        PdfReader (getvalue uploaded) = Raised exc ->
        _extract_supporting_documents PdfReader (uploaded :: more)
        = (fst (_extract_supporting_documents PdfReader more),
           warning exc :: snd (_extract_supporting_documents PdfReader more))).
Proof.
  intros warning.
  assert (Hraise : forall exc, PdfReader (getvalue uploaded) = Raised exc ->
                     ingest_one PdfReader uploaded = (None, [warning exc])).
  { intros exc Hr. unfold ingest_one. rewrite Hname, Hr.
    destruct (getvalue uploaded); [now elim Hbytes | reflexivity]. }
  split; [exact Hraise |]. split; [| split].
  - intros before exc after Hr. unfold ingest_one.
    rewrite Hname, Hr, page_texts_raised.
    destruct (getvalue uploaded); [now elim Hbytes | reflexivity].
  - intros ts Hr. unfold ingest_one. rewrite Hname, Hr, page_texts_all.
    destruct (getvalue uploaded); [now elim Hbytes |].
    now destruct (truthy (strip (join [newline] ts))).
  - intros exc more Hr. cbn [_extract_supporting_documents].
    rewrite (Hraise exc Hr).
    now destruct (_extract_supporting_documents PdfReader more).
Qed.

Lemma pdf_ingestion_witness :
  endswith (lower (name deck_pdf)) (lit ".pdf") = true
  /\ getvalue deck_pdf <> []
  /\ ingest_one no_pdf_reader deck_pdf
     = (None, [st_warning (lit "Could not read Deck.PDF: EOF marker not found")])
  /\ ingest_one two_page_reader deck_pdf
     = (Some {| doc_name := lit "Deck.PDF"; doc_content := lit "Roadmap" |}, []).
Proof.
  assert (H1 : endswith (lower (name deck_pdf)) (lit ".pdf") = true)
    by reflexivity.
  assert (H2 : getvalue deck_pdf <> []) by discriminate.
  split; [exact H1 |]. split; [exact H2 |]. split.
  - destruct (pdf_ingestion no_pdf_reader deck_pdf H1 H2) as (Hr & _).
    rewrite (Hr _ eq_refl). reflexivity.
  - destruct (pdf_ingestion two_page_reader deck_pdf H1 H2) as (_ & _ & Hp & _).
    rewrite (Hp [lit "Roadmap "; []] eq_refl). reflexivity.
Defined.

(** *** The meeting library *)

Lemma replace_char_absent (old new : char) (s : text) :
  contains_char old s = false -> replace_char old new s = s.
Proof.
  unfold replace_char, contains_char.
  induction s as [| c s IH]; cbn; [reflexivity |].
  rewrite (N.eqb_sym old c). destruct (c =? old)%N; cbn; [discriminate |].
  intros H. f_equal. now apply IH.
Qed.

Lemma replace_char_gone (old new : char) (s : text) :
  old <> new -> contains_char old (replace_char old new s) = false.
Proof.
  intros Hne. unfold contains_char, replace_char.
  induction s as [| c s IH]; [reflexivity |].
  cbn [List.map existsb]. rewrite IH, orb_false_r.
  destruct (N.eqb_spec c old); apply N.eqb_neq; congruence.
Qed.

(** X9: the label of a saved brief is the company, the separator, the
    objective and, in brackets, the timestamp with every capital T turned
    into a space: as long as the timestamp, without a T, and the same at
    every other position. *)
Theorem history_option_label (entry : HistoryEntry) :
  let shown := replace_char 84%N 32%N (timestamp entry) in
  _format_history_option entry
  = company entry ++ option_separator ++ objective entry
    ++ lit " (" ++ shown ++ lit ")"
  /\ length shown = length (timestamp entry)
  /\ contains_char 84%N shown = false
  /\ (forall i c, timestamp entry !! i = Some c -> c <> 84%N ->
                  shown !! i = Some c).
Proof.
  intros shown. subst shown. split; [| split; [| split]].
  - unfold _format_history_option.
    destruct (contains_char 84%N (timestamp entry)) eqn:HT; [reflexivity |].
    now rewrite replace_char_absent.
  - unfold replace_char. now rewrite length_map.
  - now apply replace_char_gone.
  - intros i c Hi Hc. unfold replace_char. revert i Hi.
    induction (timestamp entry) as [| c0 s IH]; intros [| i] Hi;
      try discriminate Hi.
    + injection Hi as ->. cbn [List.map].
      destruct (N.eqb_spec c 84); [contradiction | reflexivity].
    + apply (IH i Hi).
Qed.

(** X10: clearing the library never raises, whatever happens to the
    file; the session list is empty and no brief is on view afterwards,
    while the practice log and the page are as before.  When the file
    could be removed (or was not there) the next session starts empty;
    when looking at the path or removing the file failed, the error is
    swallowed, the file stays as it is and the next session starts from
    it as it would have before. *)
Theorem clear_history_contract (stat_error unlink_error : option exn)
    (w : world) :
  let w' := fst (_clear_history stat_error unlink_error w) in
  snd (_clear_history stat_error unlink_error w) = Returned tt
  /\ meeting_history w' = []
  /\ history_view w' = None
  /\ practice_history w' = practice_history w
  /\ page w' = page w
  /\ (stat_error = None -> unlink_error = None ->
      HISTORY_FILE w' = file_absent
      /\ exists w0, start_session None (HISTORY_FILE w') = session_started w0
                    /\ meeting_history w0 = [])
  /\ (forall e, stat_error = Some e \/ unlink_error = Some e ->
      HISTORY_FILE w' = HISTORY_FILE w
      /\ forall next_stat,
           start_session next_stat (HISTORY_FILE w')
           = start_session next_stat (HISTORY_FILE w)).
Proof.
  intros w'.
  assert (Hsame : forall e, stat_error = Some e \/ unlink_error = Some e ->
                            HISTORY_FILE w' = HISTORY_FILE w).
  { intros e He. subst w'. unfold _clear_history, try_except, bind, get, lift.
    destruct stat_error as [e1 |]; [reflexivity |].
    destruct He as [He | ->]; [discriminate He |].
    destruct (HISTORY_FILE w) eqn:Hf; cbn; now rewrite ?Hf. }
  assert (Hgone : stat_error = None -> unlink_error = None ->
                  HISTORY_FILE w' = file_absent).
  { intros -> ->. subst w'.
    unfold _clear_history, try_except, bind, get, lift.
    destruct (HISTORY_FILE w) eqn:Hf; cbn; now rewrite ?Hf. }
  assert (Hrest : snd (_clear_history stat_error unlink_error w) = Returned tt
                  /\ meeting_history w' = []
                  /\ history_view w' = None
                  /\ practice_history w' = practice_history w
                  /\ page w' = page w).
  { subst w'. unfold _clear_history, try_except, bind, get, lift.
    destruct stat_error, unlink_error, (HISTORY_FILE w); cbn; repeat split. }
  destruct Hrest as (H1 & H2 & H3 & H4 & H5).
  repeat match goal with |- _ /\ _ => split end; try assumption.
  - intros Hs Hu. rewrite (Hgone Hs Hu). split; [reflexivity |].
    eexists. split; reflexivity.
  - intros e He. split; [now apply (Hsame e) |].
    intros next_stat. now rewrite (Hsame e He).
Qed.

(** X11: what an append that completes has written is what the next
    session starts from: reading the file gives the session list, with
    the new entry in front, and a session started from the file has that
    list. *)
Theorem append_then_reload (d : disk) (entry : HistoryEntry) (w w' : world)
    (Hdone : _save_meeting_to_history d entry w = (w', Returned tt)) :
  (exists w0, start_session None (HISTORY_FILE w') = session_started w0
              /\ meeting_history w0 = meeting_history w')
  /\ meeting_history w' !! 0%nat = Some entry
  /\ _read_history_file None w'
     = (w', Returned (history_list (meeting_history w'))).
Proof.
  pose proof (save_returns_only_on_disk_ok _ _ _ _ Hdone) as ->.
  rewrite save_disk_ok in Hdone. injection Hdone as <-.
  split; [eexists; split; reflexivity |]. split; reflexivity.
Qed.

Lemma append_then_reload_witness :
  let w := run_appends (sample_calls 3) empty_world in
  let w' := fst (_save_meeting_to_history disk_ok (sample_entry 4) w) in
  _save_meeting_to_history disk_ok (sample_entry 4) w = (w', Returned tt)
  /\ _read_history_file None w'
     = (w', Returned (history_list [sample_entry 4; sample_entry 3;
                                    sample_entry 2; sample_entry 1])).
Proof.
  intros w w'.
  assert (H : _save_meeting_to_history disk_ok (sample_entry 4) w
              = (w', Returned tt)) by reflexivity.
  split; [exact H |].
  rewrite (proj2 (proj2 (append_then_reload _ _ _ _ H))). reflexivity.
Defined.

(** *** The handlers when the backend answers *)

Lemma bind_returned {A C} (c : M A) (k : A -> M C) (w w1 : world) (a : A) :
  c w = (w1, Returned a) -> bind c k w = k a w1.
Proof. intros H. unfold bind. now rewrite H. Qed.

Lemma bind_raised {A C} (c : M A) (k : A -> M C) (w w1 : world) (e : exn) :
  c w = (w1, Raised e) -> bind c k w = (w1, Raised e).
Proof. intros H. unfold bind. now rewrite H. Qed.

Lemma prepare_meeting_on_success {B} (generate : backend B) (b : B)
    (now : text) (f : form) (docs : list document)
    (context directives : text) (w : world) (r : crew_result)
    (result_text : text) :
  truthy (company_name f) = true ->
  truthy (meeting_objective f) = true ->
  kickoff generate b (meeting_prep_tasks f context directives) = Returned r ->
  result_truthy r = true ->
  _result_to_markdown r = Returned result_text ->
  let entry :=
    {| timestamp := now; company := company_name f;
       objective := meeting_objective f; entry_attendees := attendees f;
       focusAreas := focus_areas f; documents := List.map doc_name docs;
       result := result_text |} in
  prepare_meeting generate b disk_ok now f docs context directives w
  = ({| meeting_history := take 20 (entry :: meeting_history w);
        history_view := Some entry;
        practice_history := practice_history w;
        HISTORY_FILE := file_holds (take 20 (entry :: meeting_history w));
        page := page w
                ++ [st_markdown result_text;
                    st_download_button (lit "Download meeting brief as .md")
                      result_text;
                    st_success (lit "Meeting brief archived in your library.")] |},
     Returned tt).
Proof.
  intros Hc Ho Hk Ht Hn entry. unfold prepare_meeting.
  rewrite Hc, Ho. cbn [negb orb]. unfold bind at 1.
  rewrite (kickoff_or_report_returned _ _ _ _ r) by exact Hk.
  unfold usable. rewrite Ht.
  erewrite bind_returned by (unfold lift; now rewrite Hn).
  erewrite (bind_returned (show _)) by reflexivity.
  erewrite (bind_returned (show _)) by reflexivity.
  erewrite bind_returned by apply save_disk_ok.
  erewrite bind_returned by reflexivity.
  unfold show.
  cbn [meeting_history history_view practice_history HISTORY_FILE page].
  rewrite <- !app_assoc. reflexivity.
Qed.

(** X12: a run in which the crew returns a usable result, with a disk
    that takes the write: the brief is shown with its download and the
    success message, in that order; an entry with the time of the run,
    the result text and the names of the documents is put in front of the
    session list, which is cut to 20 and written to the file; that entry
    is the one on view; and loading it into the form gives back the form
    the run was started from. *)
Theorem successful_run_is_archived {B} (generate : backend B) (b : B)
    (now : text) (f : form) (docs : list document)
    (context directives : text) (w : world) (r : crew_result)
    (result_text : text)
    (Hcompany : truthy (company_name f) = true)
    (Hobjective : truthy (meeting_objective f) = true)
    (Hkick : kickoff generate b (meeting_prep_tasks f context directives)
             = Returned r)
    (Htruthy : result_truthy r = true)
    (Hnorm : _result_to_markdown r = Returned result_text) :
  let run := prepare_meeting generate b disk_ok now f docs context directives w in
  exists entry,
    snd run = Returned tt
    /\ meeting_history (fst run) = take 20 (entry :: meeting_history w)
    /\ HISTORY_FILE (fst run) = file_holds (meeting_history (fst run))
    /\ history_view (fst run) = Some entry
    /\ load_into_form entry = f
    /\ timestamp entry = now
    /\ result entry = result_text
    /\ documents entry = List.map doc_name docs
    /\ page (fst run)
       = page w
         ++ [st_markdown result_text;
             st_download_button (lit "Download meeting brief as .md")
               result_text;
             st_success (lit "Meeting brief archived in your library.")]
    /\ practice_history (fst run) = practice_history w.
Proof.
  intros run. subst run.
  rewrite (prepare_meeting_on_success generate b now f docs context directives
             w r result_text) by assumption.
  eexists. cbn [fst snd meeting_history HISTORY_FILE history_view page
                  practice_history].
  repeat split. now destruct f.
Qed.

Lemma successful_run_is_archived_witness :
  let run := prepare_meeting steady_backend tt disk_ok
               (lit "2024-05-01T09:00:00") acme [] [] fallback_bullet
               (run_appends (sample_calls 2) empty_world) in
  kickoff steady_backend tt (meeting_prep_tasks acme [] fallback_bullet)
  = Returned (plain (lit "Executive brief"))
  /\ exists entry,
       meeting_history (fst run) = [entry; sample_entry 2; sample_entry 1]
       /\ load_into_form entry = acme
       /\ result entry = lit "Executive brief".
Proof.
  intros run.
  assert (Hk : kickoff steady_backend tt
                 (meeting_prep_tasks acme [] fallback_bullet)
               = Returned (plain (lit "Executive brief"))) by reflexivity.
  split; [exact Hk |].
  destruct (successful_run_is_archived steady_backend tt
              (lit "2024-05-01T09:00:00") acme [] [] fallback_bullet
              (run_appends (sample_calls 2) empty_world)
              (plain (lit "Executive brief")) (lit "Executive brief")
              eq_refl eq_refl Hk eq_refl eq_refl)
    as (entry & _ & Hh & _ & _ & Hform & _ & Hres & _).
  exists entry. split; [exact Hh |]. split; assumption.
Defined.

(** X13: with the company name or the objective left empty the handler
    only warns: whatever the backend and the disk would do, nothing is
    generated, shown or saved. *)
Theorem incomplete_form_only_warns {B} (generate : backend B) (b : B)
    (d : disk) (now : text) (f : form) (docs : list document)
    (context directives : text) (w : world)
    (Hform : truthy (company_name f) = false
             \/ truthy (meeting_objective f) = false) :
  prepare_meeting generate b d now f docs context directives w
  = ({| meeting_history := meeting_history w;
        history_view := history_view w;
        practice_history := practice_history w;
        HISTORY_FILE := HISTORY_FILE w;
        page := page w
                ++ [st_warning (lit "Please provide both a company name and meeting objective before preparing the meeting.")] |},
     Returned tt).
Proof.
  unfold prepare_meeting.
  destruct Hform as [-> | ->]; [| rewrite orb_true_r]; reflexivity.
Qed.

Lemma incomplete_form_only_warns_witness :
  let f := {| company_name := lit "Acme Corp"; meeting_objective := [];
              attendees := []; focus_areas := [] |} in
  (truthy (company_name f) = false \/ truthy (meeting_objective f) = false)
  /\ meeting_history
       (fst (prepare_meeting steady_backend tt disk_ok [] f [] [] []
               empty_world)) = [].
Proof.
  intros f.
  assert (H : truthy (company_name f) = false
              \/ truthy (meeting_objective f) = false) by (right; reflexivity).
  split; [exact H |].
  rewrite (incomplete_form_only_warns steady_backend tt disk_ok [] f [] [] []
             empty_world H).
  reflexivity.
Defined.

(** X14: when the crew returns without raising but its result is falsy
    (an empty string, an object that is false), the handler ends in
    silence: no brief, no message, no entry, the world as it was. *)
Theorem empty_result_is_dropped {B} (generate : backend B) (b : B)
    (d : disk) (now : text) (f : form) (docs : list document)
    (context directives : text) (w : world) (r : crew_result)
    (Hcompany : truthy (company_name f) = true)
    (Hobjective : truthy (meeting_objective f) = true)
    (Hkick : kickoff generate b (meeting_prep_tasks f context directives)
             = Returned r)
    (Hfalsy : result_truthy r = false) :
  prepare_meeting generate b d now f docs context directives w
  = (w, Returned tt).
Proof.
  unfold prepare_meeting. rewrite Hcompany, Hobjective. cbn [negb orb].
  unfold bind at 1.
  rewrite (kickoff_or_report_returned _ _ _ _ r) by exact Hkick.
  unfold usable. now rewrite Hfalsy.
Qed.

Lemma kickoff_or_report_cases {B} (generate : backend B) (b : B)
    (tasks : list Task) (what : text) (w : world) :
  kickoff_or_report generate b tasks what w
  = match kickoff generate b tasks with
    | Returned r => (w, Returned (Some r))
    | Raised exc =>
      ({| meeting_history := meeting_history w;
          history_view := history_view w;
          practice_history := practice_history w;
          HISTORY_FILE := HISTORY_FILE w;
          page := page w ++ [st_error (what ++ exn_str exc)] |},
       Returned None)
    end.
Proof.
  destruct (kickoff generate b tasks) as [r | exc] eqn:Hk.
  - now apply kickoff_or_report_returned.
  - now apply kickoff_or_report_raised.
Qed.

(** X15: a transcript summary that the backend delivers is shown with its
    download; it goes to the library only when the box is ticked, as an
    entry without documents whose objective ends in
    " (Transcript Summary)"; the brief on view and the practice log stay
    as they are. *)
Theorem transcript_summary_saved_on_request {B} (generate : backend B) (b : B)
    (now : text) (f : form) (transcript_text : text) (save_to_library : bool)
    (w : world) (r : crew_result) (tx_text : text)
    (Htext : truthy (strip transcript_text) = true)
    (Hret : snd (generate b (ancillary_task f (practice_history w)
                               (summarize transcript_text save_to_library)))
            = Returned r)
    (Htruthy : result_truthy r = true)
    (Hnorm : _result_to_markdown r = Returned tx_text) :
  let entry :=
    {| timestamp := now; company := company_name f;
       objective := meeting_objective f ++ lit " (Transcript Summary)";
       entry_attendees := attendees f; focusAreas := focus_areas f;
       documents := []; result := tx_text |} in
  let shown :=
    [st_markdown tx_text;
     st_download_button (lit "Download transcript summary") tx_text] in
  summarize_transcript generate b disk_ok now f transcript_text
    save_to_library w
  = if save_to_library then
      ({| meeting_history := take 20 (entry :: meeting_history w);
          history_view := history_view w;
          practice_history := practice_history w;
          HISTORY_FILE := file_holds (take 20 (entry :: meeting_history w));
          page := page w ++ shown
                  ++ [st_success (lit "Transcript summary saved to library.")] |},
       Returned tt)
    else
      ({| meeting_history := meeting_history w;
          history_view := history_view w;
          practice_history := practice_history w;
          HISTORY_FILE := HISTORY_FILE w;
          page := page w ++ shown |}, Returned tt).
Proof.
  intros entry shown. unfold summarize_transcript. rewrite Htext.
  cbn [ancillary_task] in Hret.
  erewrite bind_returned
    by (apply kickoff_or_report_returned; rewrite kickoff_single; exact Hret).
  unfold usable. rewrite Htruthy.
  erewrite bind_returned by (unfold lift; now rewrite Hnorm).
  erewrite (bind_returned (show _)) by reflexivity.
  erewrite (bind_returned (show _)) by reflexivity.
  destruct save_to_library.
  - erewrite bind_returned by apply save_disk_ok.
    unfold show, shown.
    cbn [meeting_history history_view practice_history HISTORY_FILE page].
    rewrite <- !app_assoc. reflexivity.
  - unfold ret, shown.
    cbn [meeting_history history_view practice_history HISTORY_FILE page].
    rewrite <- !app_assoc. reflexivity.
Qed.

Lemma transcript_summary_saved_on_request_witness :
  let run save :=
    summarize_transcript steady_backend tt disk_ok [] acme
      (lit "We agreed on a pilot.") save empty_world in
  truthy (strip (lit "We agreed on a pilot.")) = true
  /\ length (meeting_history (fst (run true))) = 1%nat
  /\ meeting_history (fst (run false)) = [].
Proof.
  intros run. split; [reflexivity |]. subst run. cbv beta. split.
  - rewrite (transcript_summary_saved_on_request steady_backend tt [] acme
               (lit "We agreed on a pilot.") true empty_world
               (plain (lit "Executive brief")) (lit "Executive brief")
               eq_refl eq_refl eq_refl eq_refl).
    reflexivity.
  - rewrite (transcript_summary_saved_on_request steady_backend tt [] acme
               (lit "We agreed on a pilot.") false empty_world
               (plain (lit "Executive brief")) (lit "Executive brief")
               eq_refl eq_refl eq_refl eq_refl).
    reflexivity.
Defined.

(** X16: in practice mode a call the backend answers adds the coach's
    turn at the end of the log and asks for a rerun: after "Ask next
    objection" the log is one turn longer, after "Score my response" two,
    the user's response and then the feedback; the library is not
    touched. *)
Theorem practice_turn_recorded {B} (generate : backend B) (b : B) (d : disk)
    (now : text) (f : form) (a : ancillary) (w : world) (r : crew_result)
    (feedback : text)
    (Hpractice : forall t s, a <> summarize t s)
    (Hcalled : calls_backend a = true)
    (Hret : snd (generate b (ancillary_task f (practice_history w) a))
            = Returned r)
    (Htruthy : result_truthy r = true)
    (Hnorm : _result_to_markdown r = Returned feedback) :
  ancillary_handler generate b d now f a w
  = ({| meeting_history := meeting_history w;
        history_view := history_view w;
        practice_history :=
          practice_history w ++ recorded_before_call a
          ++ [{| role := coach; content := feedback |}];
        HISTORY_FILE := HISTORY_FILE w;
        page := page w ++ [st_experimental_rerun] |}, Returned tt).
Proof.
  destruct a as [t s | | user_resp]; [now elim (Hpractice t s) | |];
    cbn [ancillary_handler calls_backend ancillary_task recorded_before_call]
      in *.
  - unfold ask_next_objection.
    erewrite (bind_returned (get _)) by reflexivity.
    erewrite bind_returned
      by (apply kickoff_or_report_returned; rewrite kickoff_single; exact Hret).
    unfold usable. rewrite Htruthy.
    erewrite bind_returned by (unfold lift; now rewrite Hnorm).
    erewrite bind_returned by reflexivity. reflexivity.
  - unfold score_response. rewrite Hcalled.
    erewrite bind_returned by reflexivity.
    erewrite (bind_returned (get _)) by reflexivity.
    cbn [practice_history].
    erewrite bind_returned
      by (apply kickoff_or_report_returned; rewrite kickoff_single; exact Hret).
    unfold usable. rewrite Htruthy.
    erewrite bind_returned by (unfold lift; now rewrite Hnorm).
    erewrite bind_returned by reflexivity.
    unfold show. cbn [meeting_history history_view practice_history
                        HISTORY_FILE page].
    rewrite <- app_assoc. reflexivity.
Qed.

Lemma practice_turn_recorded_witness :
  let a := score (lit "We can phase the rollout.") in
  (forall t s, a <> summarize t s)
  /\ calls_backend a = true
  /\ practice_history
       (fst (ancillary_handler steady_backend tt disk_ok [] acme a empty_world))
     = [{| role := you; content := lit "We can phase the rollout." |};
        {| role := coach; content := lit "Executive brief" |}].
Proof.
  intros a.
  assert (H1 : forall t s, a <> summarize t s) by (intros t s; discriminate).
  split; [exact H1 |]. split; [reflexivity |].
  rewrite (practice_turn_recorded steady_backend tt disk_ok [] acme a
             empty_world (plain (lit "Executive brief"))
             (lit "Executive brief") H1 eq_refl eq_refl eq_refl eq_refl).
  reflexivity.
Defined.

(** X17: a blank transcript or a blank response is ignored: the backend
    is not called and the world stays exactly as it is. *)
Theorem blank_input_is_ignored {B} (generate : backend B) (b : B) (d : disk)
    (now : text) (f : form) (a : ancillary) (w : world)
    (Hblank : calls_backend a = false) :
  ancillary_handler generate b d now f a w = (w, Returned tt).
Proof.
  destruct a as [t s | | user_resp]; cbn [ancillary_handler calls_backend] in *.
  - unfold summarize_transcript. now rewrite Hblank.
  - discriminate Hblank.
  - unfold score_response. now rewrite Hblank.
Qed.

Lemma blank_input_is_ignored_witness :
  calls_backend (score (lit "  ")) = false
  /\ ancillary_handler backend_down tt disk_ok [] acme (score (lit "  "))
       empty_world = (empty_world, Returned tt).
Proof.
  split; [reflexivity |].
  exact (blank_input_is_ignored backend_down tt disk_ok [] acme
           (score (lit "  ")) empty_world eq_refl).
Defined.

(** *** The practice log in the prompts *)

Lemma last_n_app {A} (k : nat) (old recent : list A) :
  (k <= length recent)%nat -> last_n k (old ++ recent) = last_n k recent.
Proof.
  intros Hk. unfold last_n. rewrite length_app.
  rewrite drop_app_ge by lia. f_equal. lia.
Qed.

Lemma last_n_idem {A} (k : nat) (l : list A) :
  last_n k (last_n k l) = last_n k l.
Proof.
  unfold last_n. rewrite length_drop, drop_drop. f_equal. lia.
Qed.

(** X18: the prompts quote the last ten turns of the practice log and
    nothing before them: with ten or more recent turns, older turns
    change neither the quoted log nor the task given to the coach. *)
Theorem prompt_quotes_last_ten (f : form) (old recent : list turn)
    (Hten : (10 <= length recent)%nat) :
  history_text (old ++ recent) = history_text (last_n 10 recent)
  /\ history_text (old ++ recent) = history_text recent
  /\ ancillary_task f (old ++ recent) next_objection
     = ancillary_task f recent next_objection
  /\ length (last_n 10 (old ++ recent)) = 10%nat.
Proof.
  assert (Hmap : forall (g : turn -> text) (log : list turn),
             last_n 10 (List.map g log) = List.map g (last_n 10 log)).
  { intros g log. unfold last_n. rewrite length_map.
    first [apply skipn_map | symmetry; apply skipn_map]. }
  assert (Hsame : history_text (old ++ recent) = history_text recent).
  { unfold history_text. rewrite !Hmap. now rewrite last_n_app. }
  split; [| split; [exact Hsame | split]].
  - rewrite Hsame. unfold history_text. rewrite !Hmap.
    now rewrite last_n_idem.
  - cbn [ancillary_task]. now rewrite Hsame.
  - rewrite last_n_app by assumption. unfold last_n. rewrite length_drop. lia.
Qed.

Lemma prompt_quotes_last_ten_witness :
  let t k := {| role := coach; content := [N.of_nat k] |} in
  let recent := List.map t (seq 1 10) in
  (10 <= length recent)%nat
  /\ history_text ([t 0%nat] ++ recent) = history_text recent.
Proof.
  intros t recent.
  assert (H : (10 <= length recent)%nat) by (vm_compute; lia).
  split; [exact H |].
  exact (proj1 (proj2 (prompt_quotes_last_ten acme [t 0%nat] recent H))).
Defined.

(** *** What the handlers leave alone *)

Lemma save_effect (d : disk) (entry : HistoryEntry) (w : world) :
  let w' := fst (_save_meeting_to_history d entry w) in
  meeting_history w' = take 20 (entry :: meeting_history w)
  /\ practice_history w' = practice_history w
  /\ history_view w' = history_view w
  /\ page w' = page w.
Proof. destruct d as [| e | e []]; repeat split. Qed.

(** X19: whatever the backend, the result object and the disk do,
    "Prepare Meeting" never touches the practice log, only adds to the
    page, and leaves the session list either as it was or with one entry
    put in front and cut to 20; a list of at most 20 briefs stays one. *)
Theorem prepare_meeting_frame {B} (generate : backend B) (b : B) (d : disk)
    (now : text) (f : form) (docs : list document)
    (context directives : text) (w : world) :
  let w' := fst (prepare_meeting generate b d now f docs context directives w) in
  practice_history w' = practice_history w
  /\ page w `prefix_of` page w'
  /\ (meeting_history w' = meeting_history w
      \/ exists entry, meeting_history w' = take 20 (entry :: meeting_history w))
  /\ ((length (meeting_history w) <= 20)%nat ->
      (length (meeting_history w') <= 20)%nat).
Proof.
  intros w'.
  pose (P := fun w1 : world =>
               practice_history w1 = practice_history w
               /\ page w `prefix_of` page w1
               /\ (meeting_history w1 = meeting_history w
                   \/ exists entry,
                        meeting_history w1
                        = take 20 (entry :: meeting_history w))).
  assert (Hshow : forall evs, P {| meeting_history := meeting_history w;
                                   history_view := history_view w;
                                   practice_history := practice_history w;
                                   HISTORY_FILE := HISTORY_FILE w;
                                   page := page w ++ evs |}).
  { intros evs. split; [reflexivity |].
    split; [now apply prefix_app_r | now left]. }
  assert (Hw : P w).
  { split; [reflexivity |]. split; [reflexivity | now left]. }
  assert (Hmain : P w').
  { subst w'. unfold prepare_meeting.
    destruct (negb (truthy (company_name f))
              || negb (truthy (meeting_objective f))); [apply Hshow |].
    unfold bind at 1. rewrite kickoff_or_report_cases.
    destruct (kickoff generate b (meeting_prep_tasks f context directives))
      as [r | exc]; [| apply Hshow].
    unfold usable. destruct (result_truthy r); [| exact Hw].
    unfold bind at 1, lift.
    destruct (_result_to_markdown r) as [result_text | e]; [| exact Hw].
    erewrite (bind_returned (show _)) by reflexivity.
    erewrite (bind_returned (show _)) by reflexivity.
    unfold bind at 1.
    match goal with
    | |- context [_save_meeting_to_history d ?e ?w0] =>
      pose proof (save_effect d e w0) as (Hh & Hp & _ & Hpg);
      destruct (_save_meeting_to_history d e w0) as [w1 [[] | e1]];
      cbn [fst] in Hh, Hp, Hpg;
      cbn [meeting_history practice_history page] in Hh, Hp, Hpg
    end.
    - erewrite bind_returned by reflexivity.
      subst P. cbn [show fst practice_history page meeting_history].
      split; [exact Hp |]. split.
      + rewrite Hpg, <- !app_assoc. now apply prefix_app_r.
      + right. eexists. exact Hh.
    - subst P. cbn [fst]. split; [exact Hp |]. split.
      + rewrite Hpg, <- !app_assoc. now apply prefix_app_r.
      + right. eexists. exact Hh. }
  destruct Hmain as (Hp & Hpg & Hh).
  split; [exact Hp |]. split; [exact Hpg |]. split; [exact Hh |].
  intros Hcap. destruct Hh as [-> | [entry ->]]; [exact Hcap |].
  rewrite length_take. lia.
Qed.

Local Ltac frame_done :=
  cbn [usable show ret fst meeting_history history_view practice_history
         HISTORY_FILE page];
  repeat match goal with |- _ /\ _ => split end;
  first [ reflexivity
        | now left
        | (rewrite ?length_app; cbn [length]; lia)
        | (rewrite <- ?app_assoc; now apply prefix_app_r) ].

(** X20: whatever the backend and the result object do, the two practice
    buttons never touch the library: the session list, the history file
    and the brief on view stay as they are; they only add to the practice
    log, at most two turns, and to the page.  The transcript button never
    touches the practice log or the brief on view. *)
Theorem ancillary_frame {B} (generate : backend B) (b : B) (d : disk)
    (now : text) (f : form) (a : ancillary) (w : world) :
  let w' := fst (ancillary_handler generate b d now f a w) in
  history_view w' = history_view w
  /\ page w `prefix_of` page w'
  /\ match a with
     | summarize _ _ =>
       practice_history w' = practice_history w
       /\ (meeting_history w' = meeting_history w
           \/ exists entry,
                meeting_history w' = take 20 (entry :: meeting_history w))
     | next_objection | score _ =>
       meeting_history w' = meeting_history w
       /\ HISTORY_FILE w' = HISTORY_FILE w
       /\ practice_history w `prefix_of` practice_history w'
       /\ (length (practice_history w') <= length (practice_history w) + 2)%nat
     end.
Proof.
  intros w'. subst w'.
  destruct a as [transcript_text save_to_library | | user_resp];
    cbn [ancillary_handler].
  - pose (P := fun w1 : world =>
                 history_view w1 = history_view w
                 /\ page w `prefix_of` page w1
                 /\ practice_history w1 = practice_history w
                 /\ (meeting_history w1 = meeting_history w
                     \/ exists entry,
                          meeting_history w1
                          = take 20 (entry :: meeting_history w))).
    change (P (fst (summarize_transcript generate b d now f transcript_text
                      save_to_library w))).
    unfold summarize_transcript.
    destruct (truthy (strip transcript_text)); [| subst P; frame_done].
    unfold bind at 1. rewrite kickoff_or_report_cases.
    match goal with |- context [kickoff generate b ?ts] =>
      destruct (kickoff generate b ts) as [r | exc] end;
      [| subst P; frame_done].
    unfold usable. destruct (result_truthy r); [| subst P; frame_done].
    unfold bind at 1, lift.
    destruct (_result_to_markdown r) as [tx_text | e]; [| subst P; frame_done].
    erewrite (bind_returned (show _)) by reflexivity.
    erewrite (bind_returned (show _)) by reflexivity.
    destruct save_to_library; [| subst P; frame_done].
    unfold bind at 1.
    match goal with
    | |- context [_save_meeting_to_history d ?e ?w0] =>
      pose proof (save_effect d e w0) as (Hh & Hp & Hv & Hpg);
      destruct (_save_meeting_to_history d e w0) as [w1 [[] | e1]];
      cbn [fst] in Hh, Hp, Hv, Hpg;
      cbn [meeting_history practice_history history_view page]
        in Hh, Hp, Hv, Hpg
    end.
    + subst P. cbn [show fst meeting_history history_view practice_history
                      HISTORY_FILE page].
      split; [exact Hv |]. split.
      { rewrite Hpg, <- !app_assoc. now apply prefix_app_r. }
      split; [exact Hp |]. right. eexists. exact Hh.
    + subst P. cbn [fst].
      split; [exact Hv |]. split.
      { rewrite Hpg, <- !app_assoc. now apply prefix_app_r. }
      split; [exact Hp |]. right. eexists. exact Hh.
  - pose (P := fun w1 : world =>
                 history_view w1 = history_view w
                 /\ page w `prefix_of` page w1
                 /\ meeting_history w1 = meeting_history w
                 /\ HISTORY_FILE w1 = HISTORY_FILE w
                 /\ practice_history w `prefix_of` practice_history w1
                 /\ (length (practice_history w1)
                     <= length (practice_history w) + 2)%nat).
    change (P (fst (ask_next_objection generate b f w))).
    unfold ask_next_objection.
    erewrite (bind_returned (get _)) by reflexivity.
    unfold bind at 1. rewrite kickoff_or_report_cases.
    match goal with |- context [kickoff generate b ?ts] =>
      destruct (kickoff generate b ts) as [r | exc] end;
      [| subst P; frame_done].
    unfold usable. destruct (result_truthy r); [| subst P; frame_done].
    unfold bind at 1, lift.
    destruct (_result_to_markdown r) as [objection | e];
      [| subst P; frame_done].
    erewrite bind_returned by reflexivity.
    subst P. frame_done.
  - pose (P := fun w1 : world =>
                 history_view w1 = history_view w
                 /\ page w `prefix_of` page w1
                 /\ meeting_history w1 = meeting_history w
                 /\ HISTORY_FILE w1 = HISTORY_FILE w
                 /\ practice_history w `prefix_of` practice_history w1
                 /\ (length (practice_history w1)
                     <= length (practice_history w) + 2)%nat).
    change (P (fst (score_response generate b f user_resp w))).
    unfold score_response.
    destruct (truthy (strip user_resp)); [| subst P; frame_done].
    erewrite bind_returned by reflexivity.
    erewrite (bind_returned (get _)) by reflexivity.
    cbn [practice_history].
    unfold bind at 1. rewrite kickoff_or_report_cases.
    match goal with |- context [kickoff generate b ?ts] =>
      destruct (kickoff generate b ts) as [r | exc] end;
      [| subst P; frame_done].
    unfold usable. destruct (result_truthy r); [| subst P; frame_done].
    unfold bind at 1, lift.
    destruct (_result_to_markdown r) as [feedback | e];
      [| subst P; frame_done].
    erewrite bind_returned by reflexivity.
    subst P. frame_done.
Qed.

Lemma empty_result_is_dropped_witness :
  kickoff silent_backend tt (meeting_prep_tasks acme [] fallback_bullet)
  = Returned (plain [])
  /\ result_truthy (plain []) = false
  /\ prepare_meeting silent_backend tt disk_ok [] acme [] [] fallback_bullet
       empty_world = (empty_world, Returned tt).
Proof.
  assert (Hk : kickoff silent_backend tt
                 (meeting_prep_tasks acme [] fallback_bullet)
               = Returned (plain [])) by reflexivity.
  split; [exact Hk |]. split; [reflexivity |].
  exact (empty_result_is_dropped silent_backend tt disk_ok [] acme [] []
           fallback_bullet empty_world (plain []) eq_refl eq_refl Hk eq_refl).
Defined.


(** *** Slides from a brief *)

Lemma line_cases (line : text) :
  is_heading line = true
  \/ is_content line = true
  \/ (truthy (strip line) = false /\ is_heading line = false
      /\ is_content line = false).
Proof.
  unfold is_content. destruct (is_heading line) eqn:Hh; [now left |].
  destruct (truthy (strip line)); [right; now left |]. right. now right.
Qed.

Lemma content_not_heading (line : text) :
  is_content line = true ->
  is_heading line = false /\ truthy (strip line) = true.
Proof.
  unfold is_content. intros H. apply andb_true_iff in H as [Hh Ht].
  now apply negb_true_iff in Hh.
Qed.

Lemma nonempty_snoc {A} (l : list A) :
  l <> [] -> exists before current, l = before ++ [current].
Proof.
  intros H. destruct (reverse l) as [| c r] eqn:Hr.
  - apply (f_equal reverse) in Hr. rewrite reverse_involutive in Hr.
    now elim H.
  - exists (reverse r), c. apply (f_equal reverse) in Hr.
    rewrite reverse_involutive in Hr. rewrite Hr, reverse_cons. reflexivity.
Qed.

Lemma deck_texts_app (s1 s2 : list slide) :
  deck_texts (s1 ++ s2) = deck_texts s1 ++ deck_texts s2.
Proof.
  unfold deck_texts. now rewrite List.map_app, List.concat_app, List.filter_app.
Qed.

Lemma filter_put_paragraph (body : list text) (p : text) :
  List.filter truthy (put_paragraph body p)
  = List.filter truthy body ++ List.filter truthy [p].
Proof.
  unfold put_paragraph. destruct body as [| first [| second more]].
  - reflexivity.
  - destruct (truthy first) eqn:Hf.
    + now rewrite List.filter_app.
    + cbn [List.filter]. now rewrite Hf.
  - now rewrite List.filter_app.
Qed.

Section SlideBuilderFacts.

Variable set_text : text_setter.

Lemma slide_step_heading (slides : list slide) (line : text) :
  is_heading line = true ->
  slide_step set_text slides line = add_slide_with_title set_text line slides.
Proof. intros H. unfold slide_step. now rewrite H. Qed.

Lemma slide_step_content (slides : list slide) (line : text) :
  is_content line = true ->
  slide_step set_text slides line = add_bullet set_text line slides.
Proof.
  intros H. apply content_not_heading in H as [Hh Ht].
  unfold slide_step. rewrite Hh, Ht. now destruct (_ || _).
Qed.

Lemma slide_step_blank (slides : list slide) (line : text) :
  truthy (strip line) = false ->
  slide_step set_text slides line = Returned slides.
Proof.
  intros H. unfold slide_step, is_heading, startswith.
  destruct (strip line); [reflexivity | discriminate].
Qed.

Lemma add_slide_returned (heading : text) (slides result : list slide) :
  add_slide_with_title set_text heading slides = Returned result ->
  exists title,
    stores set_text (heading_title heading) title
    /\ result = slides ++ [{| slide_title := title; paragraphs := [[]] |}].
Proof.
  unfold add_slide_with_title, stores, heading_title.
  destruct (set_text _) as [title | e]; [| discriminate].
  intros H. injection H as <-. now exists title.
Qed.

Lemma add_bullet_current (before : list slide) (current : slide) (line : text) :
  add_bullet set_text line (before ++ [current])
  = match set_text (bullet_text line) with
    | Returned p =>
      Returned (before
                ++ [{| slide_title := slide_title current;
                       paragraphs := put_paragraph (paragraphs current) p |}])
    | Raised e => Raised e
    end.
Proof.
  unfold add_bullet, bullet_text.
  destruct (before ++ [current]) eqn:Hl; [now destruct before |].
  rewrite <- Hl, reverse_app. cbn [reverse app].
  change (reverse [current]) with [current]. cbn [app].
  now rewrite reverse_involutive.
Qed.

Lemma add_bullet_first (line : text) :
  add_bullet set_text line []
  = match set_text (lit "Details") with
    | Raised e => Raised e
    | Returned details =>
      match set_text (bullet_text line) with
      | Returned p =>
        Returned [{| slide_title := details; paragraphs := [p] |}]
      | Raised e => Raised e
      end
    end.
Proof.
  unfold add_bullet, add_slide_with_title, bullet_text.
  change (strip (strip_chars (lit "# ") (lit "Details"))) with (lit "Details").
  destruct (set_text (lit "Details")) as [details | e]; reflexivity.
Qed.

(** From a deck that has a slide already. *)
Lemma build_from_slides (lines : list text) (slides result : list slide) :
  slides <> [] ->
  build_slides set_text lines slides = Returned result ->
  result <> []
  /\ (exists titles,
        List.map slide_title result = List.map slide_title slides ++ titles
        /\ Forall2 (stores set_text)
             (List.map heading_title (List.filter is_heading lines)) titles)
  /\ ((forall s t, set_text s = Returned t -> truthy t = truthy s) ->
      exists texts,
        deck_texts result = deck_texts slides ++ texts
        /\ Forall2 (stores set_text)
             (List.filter truthy (wanted_texts lines)) texts).
Proof.
  revert slides. induction lines as [| line rest IH]; intros slides Hne Hb.
  - cbn in Hb. injection Hb as <-. split; [exact Hne |]. split.
    + exists []. split; [now rewrite app_nil_r | constructor].
    + intros _. exists []. split; [now rewrite app_nil_r | constructor].
  - cbn [build_slides] in Hb. unfold wanted_texts. cbn [List.filter].
    destruct (line_cases line) as [Hh | [Hc | (Hblank & Hh & Hc)]].
    + assert (Hnc : is_content line = false)
        by (unfold is_content; now rewrite Hh).
      rewrite Hh, Hnc. rewrite slide_step_heading in Hb by assumption.
      destruct (add_slide_with_title set_text line slides) as [s1 | e] eqn:Ha;
        [| discriminate].
      apply add_slide_returned in Ha as (title & Ht & ->).
      assert (Hne1 : slides ++ [{| slide_title := title; paragraphs := [[]] |}]
                     <> []) by (now destruct slides).
      destruct (IH _ Hne1 Hb) as (Hr & (titles & Hm & Hf) & Htx).
      split; [exact Hr |]. split.
      * exists (title :: titles). split.
        -- rewrite Hm, List.map_app, <- app_assoc. reflexivity.
        -- cbn [List.map]. now constructor.
      * intros Hempty. destruct (Htx Hempty) as (texts & Hd & Hft).
        exists texts. split; [| exact Hft].
        rewrite Hd, deck_texts_app. unfold deck_texts at 2. cbn.
        now rewrite app_nil_r.
    + destruct (content_not_heading line Hc) as [Hh _]. rewrite Hh, Hc.
      rewrite slide_step_content in Hb by assumption.
      destruct (nonempty_snoc slides Hne) as (before & current & ->).
      rewrite add_bullet_current in Hb.
      destruct (set_text (bullet_text line)) as [p | e] eqn:Hp; [| discriminate].
      assert (Hne1 : before
                     ++ [{| slide_title := slide_title current;
                            paragraphs := put_paragraph (paragraphs current) p |}]
                     <> []) by (now destruct before).
      destruct (IH _ Hne1 Hb) as (Hr & (titles & Hm & Hf) & Htx).
      split; [exact Hr |]. split.
      * exists titles. split; [| exact Hf].
        rewrite Hm, !List.map_app. reflexivity.
      * intros Hempty. destruct (Htx Hempty) as (texts & Hd & Hft).
        exists (List.filter truthy [p] ++ texts). split.
        -- rewrite Hd, !deck_texts_app, <- !app_assoc. f_equal.
           rewrite app_assoc. f_equal. unfold deck_texts.
           cbn [List.map concat paragraphs]. rewrite !app_nil_r.
           apply filter_put_paragraph.
        -- cbn [List.map List.filter]. rewrite <- (Hempty _ _ Hp).
           destruct (truthy p); [now constructor | exact Hft].
    + rewrite Hh, Hc. rewrite slide_step_blank in Hb by assumption.
      now apply IH.
Qed.

(** From the empty deck. *)
Lemma build_from_nothing (lines : list text) (result : list slide) :
  build_slides set_text lines [] = Returned result ->
  Forall2 (stores set_text) (wanted_titles lines) (List.map slide_title result)
  /\ ((forall s t, set_text s = Returned t -> truthy t = truthy s) ->
      Forall2 (stores set_text) (List.filter truthy (wanted_texts lines))
        (deck_texts result)).
Proof.
  induction lines as [| line rest IH]; intros Hb.
  - cbn in Hb. injection Hb as <-. split; [constructor | intros _; constructor].
  - cbn [build_slides] in Hb. unfold wanted_titles, wanted_texts.
    cbn [starts_with_content List.filter].
    destruct (line_cases line) as [Hh | [Hc | (Hblank & Hh & Hc)]].
    + assert (Hnc : is_content line = false)
        by (unfold is_content; now rewrite Hh).
      rewrite Hh, Hnc. rewrite slide_step_heading in Hb by assumption.
      destruct (add_slide_with_title set_text line []) as [s1 | e] eqn:Ha;
        [| discriminate].
      apply add_slide_returned in Ha as (title & Ht & ->).
      assert (Hne1 : [] ++ [{| slide_title := title; paragraphs := [[]] |}]
                     <> []) by discriminate.
      destruct (build_from_slides _ _ _ Hne1 Hb)
        as (_ & (titles & Hm & Hf) & Htx).
      split.
      * rewrite Hm. cbn [app List.map slide_title]. now constructor.
      * intros Hempty. destruct (Htx Hempty) as (texts & Hd & Hft).
        rewrite Hd. exact Hft.
    + destruct (content_not_heading line Hc) as [Hh Ht]. rewrite Hh, Ht, Hc.
      rewrite slide_step_content, add_bullet_first in Hb by assumption.
      destruct (set_text (lit "Details")) as [details | e] eqn:Hd;
        [| discriminate].
      destruct (set_text (bullet_text line)) as [p | e] eqn:Hp; [| discriminate].
      assert (Hne1 : [{| slide_title := details; paragraphs := [p] |}] <> [])
        by discriminate.
      destruct (build_from_slides _ _ _ Hne1 Hb)
        as (_ & (titles & Hm & Hf) & Htx).
      split.
      * rewrite Hm. cbn [app List.map slide_title]. now constructor.
      * intros Hempty. destruct (Htx Hempty) as (texts & Hdt & Hft).
        rewrite Hdt. unfold deck_texts at 1.
        cbn [List.map concat paragraphs app List.filter].
        rewrite <- (Hempty _ _ Hp).
        destruct (truthy p); [now constructor | exact Hft].
    + rewrite Hh, Hblank, Hc. rewrite slide_step_blank in Hb by assumption.
      now apply IH.
Qed.

(** The loop goes through when the setter takes every text. *)
Lemma build_returns (lines : list text) (slides : list slide) :
  (slides = [] -> starts_with_content lines = true ->
   accepts set_text (lit "Details")) ->
  Forall (accepts set_text)
    (List.map heading_title (List.filter is_heading lines)) ->
  Forall (accepts set_text) (wanted_texts lines) ->
  exists result, build_slides set_text lines slides = Returned result.
Proof.
  revert slides. unfold wanted_texts.
  induction lines as [| line rest IH]; intros slides Hd Hh Hc;
    [now exists slides |].
  cbn [build_slides]. cbn [List.filter starts_with_content] in Hd, Hh, Hc.
  destruct (line_cases line) as [Hhead | [Hcont | (Hblank & Hhead & Hcont)]].
  - assert (Hnc : is_content line = false)
      by (unfold is_content; now rewrite Hhead).
    rewrite Hhead in Hd, Hh. rewrite Hnc in Hc. cbn [List.map] in Hh.
    apply Forall_cons in Hh as [[title Ht] Hh].
    rewrite slide_step_heading by assumption.
    unfold add_slide_with_title. unfold heading_title in Ht. rewrite Ht.
    apply IH; [| assumption ..]. intros Hnil. now destruct slides.
  - destruct (content_not_heading line Hcont) as [Hhead Ht].
    rewrite Hhead, Ht in Hd. rewrite Hhead in Hh. rewrite Hcont in Hc.
    cbn [List.map] in Hc. apply Forall_cons in Hc as [[p Hp] Hc].
    rewrite slide_step_content by assumption.
    destruct slides as [| s0 more] eqn:Hs.
    + rewrite add_bullet_first. destruct (Hd eq_refl eq_refl) as [details Hdt].
      rewrite Hdt, Hp. apply IH; [discriminate | assumption ..].
    + rewrite <- Hs.
      destruct (nonempty_snoc slides) as (before & current & ->);
        [rewrite Hs; discriminate |].
      rewrite add_bullet_current, Hp. apply IH; [| assumption ..].
      intros Hnil. now destruct before.
  - rewrite Hhead, Hblank in Hd. rewrite Hhead in Hh. rewrite Hcont in Hc.
    rewrite slide_step_blank by assumption. now apply IH.
Qed.

End SlideBuilderFacts.

(** The loop goes through only when the setter takes every text. *)
Lemma build_accepts (set_text : text_setter) (lines : list text)
    (slides result : list slide) :
  build_slides set_text lines slides = Returned result ->
  (slides = [] -> starts_with_content lines = true ->
   accepts set_text (lit "Details"))
  /\ Forall (accepts set_text)
       (List.map heading_title (List.filter is_heading lines))
  /\ Forall (accepts set_text) (wanted_texts lines).
Proof.
  revert slides. unfold wanted_texts.
  induction lines as [| line rest IH]; intros slides Hb.
  - split; [discriminate |]. split; constructor.
  - cbn [build_slides] in Hb. cbn [List.filter starts_with_content].
    destruct (line_cases line) as [Hh | [Hc | (Hblank & Hh & Hc)]].
    + assert (Hnc : is_content line = false)
        by (unfold is_content; now rewrite Hh).
      rewrite Hh, Hnc. rewrite slide_step_heading in Hb by assumption.
      destruct (add_slide_with_title set_text line slides) as [s1 | e] eqn:Ha;
        [| discriminate].
      apply add_slide_returned in Ha as (title & Ht & ->).
      destruct (IH _ Hb) as (_ & Hhs & Hcs).
      split; [discriminate |]. split; [| exact Hcs].
      cbn [List.map]. constructor; [now exists title | exact Hhs].
    + destruct (content_not_heading line Hc) as [Hh Ht]. rewrite Hh, Ht, Hc.
      rewrite slide_step_content in Hb by assumption.
      destruct slides as [| s0 more] eqn:Hs.
      * rewrite add_bullet_first in Hb.
        destruct (set_text (lit "Details")) as [details | e] eqn:Hd;
          [| discriminate].
        destruct (set_text (bullet_text line)) as [p | e] eqn:Hp;
          [| discriminate].
        destruct (IH _ Hb) as (_ & Hhs & Hcs).
        split; [intros _ _; now exists details |]. split; [exact Hhs |].
        cbn [List.map]. constructor; [now exists p | exact Hcs].
      * rewrite <- Hs in Hb.
        destruct (nonempty_snoc slides) as (before & current & Hbc);
          [rewrite Hs; discriminate |].
        rewrite Hbc, add_bullet_current in Hb.
        destruct (set_text (bullet_text line)) as [p | e] eqn:Hp;
          [| discriminate].
        destruct (IH _ Hb) as (_ & Hhs & Hcs).
        split; [discriminate |]. split; [exact Hhs |].
        cbn [List.map]. constructor; [now exists p | exact Hcs].
    + rewrite Hh, Hblank, Hc. rewrite slide_step_blank in Hb by assumption.
      now apply IH.
Qed.

Lemma builder_texts_accepted (set_text : text_setter) (title : text)
    (lines : list text) :
  Forall (accepts set_text) (builder_texts title lines)
  <-> accepts set_text title
      /\ accepts set_text (lit "Auto-generated from executive brief")
      /\ (starts_with_content lines = true -> accepts set_text (lit "Details"))
      /\ Forall (accepts set_text)
           (List.map heading_title (List.filter is_heading lines))
      /\ Forall (accepts set_text) (wanted_texts lines).
Proof.
  unfold builder_texts, wanted_titles.
  rewrite !Forall_cons, !Forall_app.
  destruct (starts_with_content lines).
  - rewrite Forall_cons, Forall_nil. tauto.
  - rewrite Forall_nil. intuition discriminate.
Qed.

Lemma brief_to_pptx_returns (set_text : text_setter)
    (markdown_text title : text) :
  Forall (accepts set_text) (builder_texts title (splitlines markdown_text)) ->
  exists shown subtitle built,
    set_text title = Returned shown
    /\ set_text (lit "Auto-generated from executive brief") = Returned subtitle
    /\ build_slides set_text (splitlines markdown_text) [] = Returned built
    /\ _brief_to_pptx set_text true markdown_text title
       = Returned (Some {| deck_title := shown; deck_subtitle := subtitle;
                           slides := built |}).
Proof.
  intros Hacc. apply builder_texts_accepted in Hacc
    as ([shown Ht] & [subtitle Hs] & Hd & Hh & Hc).
  destruct (build_returns set_text (splitlines markdown_text) [])
    as [built Hb]; [intros _; exact Hd | exact Hh | exact Hc |].
  exists shown, subtitle, built. unfold _brief_to_pptx.
  now rewrite Ht, Hs, Hb.
Qed.

(** X21: when the text setters of the library take every text the
    builder hands them, [_brief_to_pptx] returns a deck whose title and
    subtitle are the given title and the fixed subtitle as the library
    stores them, and whose slides are, in the order of the brief, one per
    heading line (a line that starts with [# ] or [## ] once trimmed),
    titled as the library stores the line with [#] and spaces taken off
    both ends and then trimmed, with a slide titled "Details" in front
    exactly when content comes before the first heading. *)
Theorem slide_titles (set_text : text_setter) (markdown_text title : text)
    (Hacc : Forall (accepts set_text)
              (builder_texts title (splitlines markdown_text))) :
  exists deck,
    _brief_to_pptx set_text true markdown_text title = Returned (Some deck)
    /\ stores set_text title (deck_title deck)
    /\ stores set_text (lit "Auto-generated from executive brief")
         (deck_subtitle deck)
    /\ Forall2 (stores set_text)
         ((if starts_with_content (splitlines markdown_text)
           then [lit "Details"] else [])
          ++ List.map heading_title
               (List.filter is_heading (splitlines markdown_text)))
         (List.map slide_title (slides deck)).
Proof.
  destruct (brief_to_pptx_returns _ _ _ Hacc)
    as (shown & subtitle & built & Ht & Hs & Hb & Hr).
  eexists. split; [exact Hr |]. cbn [deck_title deck_subtitle slides].
  split; [exact Ht |]. split; [exact Hs |].
  exact (proj1 (build_from_nothing set_text _ _ Hb)).
Qed.

Lemma slide_titles_witness :
  Forall (accepts plain_setter)
    (builder_texts (lit "Brief") (splitlines short_brief))
  /\ exists deck,
       _brief_to_pptx plain_setter true short_brief (lit "Brief")
       = Returned (Some deck)
       /\ List.map slide_title (slides deck) = [lit "Details"; lit "Goals"].
Proof.
  assert (H : Forall (accepts plain_setter)
                (builder_texts (lit "Brief") (splitlines short_brief))).
  { apply Forall_forall. intros s _. now exists s. }
  split; [exact H |].
  destruct (slide_titles plain_setter short_brief (lit "Brief") H)
    as (deck & Hr & _).
  exists deck. split; [exact Hr |].
  vm_compute in Hr. injection Hr as <-. reflexivity.
Defined.

(** X22: when the library takes every text and stores a text as empty
    only if it is empty, no text of the brief is lost or reordered on the
    way to the slides: read in order, the non-empty paragraphs of the
    slides are, as the library stores them, the content lines of the
    brief (neither blank nor heading), each with the characters [-],
    [*], tab and space taken off both ends, those that are nothing but
    such marks left out. *)
Theorem slides_keep_the_text (set_text : text_setter)
    (markdown_text title : text)
    (Hacc : Forall (accepts set_text)
              (builder_texts title (splitlines markdown_text)))
    (Hempty : forall s t, set_text s = Returned t -> truthy t = truthy s) :
  exists deck,
    _brief_to_pptx set_text true markdown_text title = Returned (Some deck)
    /\ Forall2 (stores set_text)
         (List.filter truthy
            (List.map bullet_text
               (List.filter is_content (splitlines markdown_text))))
         (deck_texts (slides deck)).
Proof.
  destruct (brief_to_pptx_returns _ _ _ Hacc)
    as (shown & subtitle & built & Ht & Hs & Hb & Hr).
  eexists. split; [exact Hr |]. cbn [slides].
  exact (proj2 (build_from_nothing set_text _ _ Hb) Hempty).
Qed.

Lemma slides_keep_the_text_witness :
  Forall (accepts plain_setter)
    (builder_texts (lit "Brief") (splitlines short_brief))
  /\ (forall s t, plain_setter s = Returned t -> truthy t = truthy s)
  /\ exists deck,
       _brief_to_pptx plain_setter true short_brief (lit "Brief")
       = Returned (Some deck)
       /\ deck_texts (slides deck) = [lit "Intro"; lit "renew"; lit "expand"].
Proof.
  assert (H : Forall (accepts plain_setter)
                (builder_texts (lit "Brief") (splitlines short_brief))).
  { apply Forall_forall. intros s _. now exists s. }
  assert (He : forall s t, plain_setter s = Returned t -> truthy t = truthy s).
  { intros s t Hst. injection Hst as <-. reflexivity. }
  split; [exact H |]. split; [exact He |].
  destruct (slides_keep_the_text plain_setter short_brief (lit "Brief") H He)
    as (deck & Hr & _).
  exists deck. split; [exact Hr |].
  vm_compute in Hr. injection Hr as <-. reflexivity.
Defined.

(** X23: [_brief_to_pptx] returns a deck exactly when the library takes
    every text the builder hands it (the title, the subtitle, "Details"
    when content comes first, every heading title and every paragraph
    text); when an assignment raises, so does the function, there being
    no [try] around it; and without [python-pptx] it returns no deck and
    the setters are not asked. *)
Theorem brief_to_pptx_returns_iff (set_text : text_setter)
    (markdown_text title : text) :
  ((exists deck,
      _brief_to_pptx set_text true markdown_text title = Returned (Some deck))
   <-> Forall (accepts set_text)
         (builder_texts title (splitlines markdown_text)))
  /\ (~ Forall (accepts set_text)
          (builder_texts title (splitlines markdown_text)) ->
      exists e, _brief_to_pptx set_text true markdown_text title = Raised e)
  /\ _brief_to_pptx set_text false markdown_text title = Returned None.
Proof.
  assert (Hif : forall r, _brief_to_pptx set_text true markdown_text title
                          = Returned r ->
                Forall (accepts set_text)
                  (builder_texts title (splitlines markdown_text))).
  { intros r Hr. unfold _brief_to_pptx in Hr.
    destruct (set_text title) as [shown |] eqn:Ht; [| discriminate].
    destruct (set_text (lit "Auto-generated from executive brief"))
      as [subtitle |] eqn:Hs; [| discriminate].
    destruct (build_slides set_text (splitlines markdown_text) [])
      as [built |] eqn:Hb; [| discriminate].
    apply build_accepts in Hb as (Hd & Hh & Hc).
    apply builder_texts_accepted.
    split; [now exists shown |]. split; [now exists subtitle |].
    split; [now apply Hd |]. now split. }
  split; [| split].
  - split.
    + intros [deck Hr]. now apply (Hif (Some deck)).
    + intros Hacc. destruct (brief_to_pptx_returns _ _ _ Hacc)
        as (shown & subtitle & built & _ & _ & _ & Hr).
      eexists. exact Hr.
  - intros Hno.
    destruct (_brief_to_pptx set_text true markdown_text title) as [r | e] eqn:Hr;
      [| now exists e].
    now elim Hno; apply (Hif r).
  - reflexivity.
Qed.

(** A heading line that starts with a tab keeps its marks in the title:
    only [#] and spaces are taken off the raw line. *)
Example heading_after_tab :
  is_heading ([tab] ++ lit "# Risks") = true
  /\ heading_title ([tab] ++ lit "# Risks") = lit "# Risks".
Proof. split; reflexivity. Qed.

(** A short brief and its deck, with a setter that stores what it is
    given. *)
Example deck_of_short_brief :
  _brief_to_pptx plain_setter true short_brief (lit "Brief")
  = Returned
      (Some {| deck_title := lit "Brief";
               deck_subtitle := lit "Auto-generated from executive brief";
               slides :=
                 [{| slide_title := lit "Details";
                     paragraphs := [lit "Intro"] |};
                  {| slide_title := lit "Goals";
                     paragraphs := [lit "renew"; lit "expand"] |}] |}).
Proof. reflexivity. Qed.
